(** * Print jobs of [octoprint.comm.job]

    A shallow embedding of [src/octoprint/comm/job/__init__.py]: the job
    classes [Printjob], [StoragePrintjob], [LocalFilePrintjob],
    [LocalGcodeFilePrintjob], [LocalGcodeStreamjob] and [SDFilePrintjob],
    their lifecycle methods and the line reader [get_next].

    A job is a Python object mutated in place by its methods; the methods
    also talk to a protocol object, to the listeners of the job, to the
    logger, to the file system and to the monotonic clock.  All of this is
    threaded explicitly: a method is a function from a state (the job and
    its environment) to an outcome and a new state.  Everything a method
    does to the outside is appended to a trace.

    Readings of the clock are integers (ticks); the text of a file has one
    character for each byte.  The event payload takes [event_data] as an
    argument.  Left out are the capability probes [can_process], the
    content generator, and the callbacks of the status timer, which runs
    beside the job. *)

From Stdlib Require Import ZArith List String Ascii Bool Lia.
From Stdlib Require Import Floats.SpecFloat.
Import ListNotations.

Local Open Scope string_scope.
Local Open Scope list_scope.
Local Open Scope Z_scope.

(** ** Values *)

(** Readings of [monotonic()], in ticks of the clock. *)
Definition time : Type := Z.

(** A protocol object, by identity. *)
Definition protocol : Type := nat.

(** The exceptions the module can raise or let through. *)
Inductive exn : Type :=
| ValueError
| TypeError
| AttributeError
| IOError.

(** The classes of the module, as tags: a method call on [self] is
    resolved on the tag, along the method resolution order. *)
Inductive job_class : Type :=
| PrintjobC
| StoragePrintjobC
| LocalFilePrintjobC
| LocalGcodeFilePrintjobC
| LocalGcodeStreamjobC
| SDFilePrintjobC.

(** Subclasses of [LocalFilePrintjob]. *)
Definition is_local (c : job_class) : bool :=
  match c with
  | LocalFilePrintjobC | LocalGcodeFilePrintjobC | LocalGcodeStreamjobC => true
  | _ => false
  end.

(** The callbacks of [PrintjobListener]. *)
Inductive callback : Type :=
| on_job_started
| on_job_done
| on_job_failed
| on_job_cancelling
| on_job_cancelled
| on_job_paused
| on_job_resumed
| on_job_progress.

(** The three callbacks that end a run. *)
Definition terminal (cb : callback) : bool :=
  match cb with
  | on_job_done | on_job_failed | on_job_cancelled => true
  | _ => false
  end.

(** The methods of the protocol object the jobs call. *)
Inductive protocol_call : Type :=
| register_listener
| unregister_listener
| record_file (remote : string)
| stop_recording_file
| delete_file (remote : string)
| start_file_print (filename : string) (position : Z)
                   (tags : option (list string)).

(** Modelled from the spec: the states of the protocol
    ([octoprint.comm.protocol.ProtocolState], not part of the module).  The
    spec asks for "at least a DISCONNECTED / DISCONNECTED_WITH_ERROR
    distinction"; every other state is [OTHER_STATE]. *)
Inductive ProtocolState : Type :=
| DISCONNECTED
| DISCONNECTED_WITH_ERROR
| OTHER_STATE (n : nat).

(** ** The job object

    One record holds the attributes of all the classes; [cls] says which
    class the instance has.  An attribute a class does not have is never
    read by the methods of that class. *)
Record job : Type := mkJob {
  cls : job_class;   (* class of the instance; selects the method bodies *)
  _start : option time;
  _protocol : option protocol;
  _name : option string;
  _user : option string;
  _lost_time : time;
  _last_elapsed : option time;
  _storage : string;
  _path_in_storage : string;
  _path : string;
  _encoding : string;
  _size : option Z;
  _pos : Z;
  _read_lines : Z;
  _actual_lines : Z;
  _cancel_pos : option Z;
  _handle : option string;   (* open handle: the decoded text not yet read *)
  _remote : string;
  _filename : string;
  _status_interval : time;
  _status_timer : option time;   (* the running timer, by its interval *)
  _active : bool;
  _last_pos : option Z
}.

Definition set_start (v : option time) (j : job) : job :=
  mkJob (cls j) v (_protocol j) (_name j) (_user j) (_lost_time j)
    (_last_elapsed j) (_storage j) (_path_in_storage j) (_path j)
    (_encoding j) (_size j) (_pos j) (_read_lines j) (_actual_lines j)
    (_cancel_pos j) (_handle j) (_remote j) (_filename j) (_status_interval j)
    (_status_timer j) (_active j) (_last_pos j).

Definition set_protocol (v : option protocol) (j : job) : job :=
  mkJob (cls j) (_start j) v (_name j) (_user j) (_lost_time j)
    (_last_elapsed j) (_storage j) (_path_in_storage j) (_path j)
    (_encoding j) (_size j) (_pos j) (_read_lines j) (_actual_lines j)
    (_cancel_pos j) (_handle j) (_remote j) (_filename j) (_status_interval j)
    (_status_timer j) (_active j) (_last_pos j).

Definition set_lost_time (v : time) (j : job) : job :=
  mkJob (cls j) (_start j) (_protocol j) (_name j) (_user j) v
    (_last_elapsed j) (_storage j) (_path_in_storage j) (_path j)
    (_encoding j) (_size j) (_pos j) (_read_lines j) (_actual_lines j)
    (_cancel_pos j) (_handle j) (_remote j) (_filename j) (_status_interval j)
    (_status_timer j) (_active j) (_last_pos j).

Definition set_last_elapsed (v : option time) (j : job) : job :=
  mkJob (cls j) (_start j) (_protocol j) (_name j) (_user j) (_lost_time j) v
    (_storage j) (_path_in_storage j) (_path j) (_encoding j) (_size j)
    (_pos j) (_read_lines j) (_actual_lines j) (_cancel_pos j) (_handle j)
    (_remote j) (_filename j) (_status_interval j) (_status_timer j)
    (_active j) (_last_pos j).

Definition set_size (v : option Z) (j : job) : job :=
  mkJob (cls j) (_start j) (_protocol j) (_name j) (_user j) (_lost_time j)
    (_last_elapsed j) (_storage j) (_path_in_storage j) (_path j)
    (_encoding j) v (_pos j) (_read_lines j) (_actual_lines j) (_cancel_pos j)
    (_handle j) (_remote j) (_filename j) (_status_interval j)
    (_status_timer j) (_active j) (_last_pos j).

Definition set_pos (v : Z) (j : job) : job :=
  mkJob (cls j) (_start j) (_protocol j) (_name j) (_user j) (_lost_time j)
    (_last_elapsed j) (_storage j) (_path_in_storage j) (_path j)
    (_encoding j) (_size j) v (_read_lines j) (_actual_lines j)
    (_cancel_pos j) (_handle j) (_remote j) (_filename j) (_status_interval j)
    (_status_timer j) (_active j) (_last_pos j).

Definition set_read_lines (v : Z) (j : job) : job :=
  mkJob (cls j) (_start j) (_protocol j) (_name j) (_user j) (_lost_time j)
    (_last_elapsed j) (_storage j) (_path_in_storage j) (_path j)
    (_encoding j) (_size j) (_pos j) v (_actual_lines j) (_cancel_pos j)
    (_handle j) (_remote j) (_filename j) (_status_interval j)
    (_status_timer j) (_active j) (_last_pos j).

Definition set_actual_lines (v : Z) (j : job) : job :=
  mkJob (cls j) (_start j) (_protocol j) (_name j) (_user j) (_lost_time j)
    (_last_elapsed j) (_storage j) (_path_in_storage j) (_path j)
    (_encoding j) (_size j) (_pos j) (_read_lines j) v (_cancel_pos j)
    (_handle j) (_remote j) (_filename j) (_status_interval j)
    (_status_timer j) (_active j) (_last_pos j).

Definition set_cancel_pos (v : option Z) (j : job) : job :=
  mkJob (cls j) (_start j) (_protocol j) (_name j) (_user j) (_lost_time j)
    (_last_elapsed j) (_storage j) (_path_in_storage j) (_path j)
    (_encoding j) (_size j) (_pos j) (_read_lines j) (_actual_lines j) v
    (_handle j) (_remote j) (_filename j) (_status_interval j)
    (_status_timer j) (_active j) (_last_pos j).

Definition set_handle (v : option string) (j : job) : job :=
  mkJob (cls j) (_start j) (_protocol j) (_name j) (_user j) (_lost_time j)
    (_last_elapsed j) (_storage j) (_path_in_storage j) (_path j)
    (_encoding j) (_size j) (_pos j) (_read_lines j) (_actual_lines j)
    (_cancel_pos j) v (_remote j) (_filename j) (_status_interval j)
    (_status_timer j) (_active j) (_last_pos j).

Definition set_status_timer (v : option time) (j : job) : job :=
  mkJob (cls j) (_start j) (_protocol j) (_name j) (_user j) (_lost_time j)
    (_last_elapsed j) (_storage j) (_path_in_storage j) (_path j)
    (_encoding j) (_size j) (_pos j) (_read_lines j) (_actual_lines j)
    (_cancel_pos j) (_handle j) (_remote j) (_filename j)
    (_status_interval j) v (_active j) (_last_pos j).

Definition set_active (v : bool) (j : job) : job :=
  mkJob (cls j) (_start j) (_protocol j) (_name j) (_user j) (_lost_time j)
    (_last_elapsed j) (_storage j) (_path_in_storage j) (_path j)
    (_encoding j) (_size j) (_pos j) (_read_lines j) (_actual_lines j)
    (_cancel_pos j) (_handle j) (_remote j) (_filename j) (_status_interval j)
    (_status_timer j) v (_last_pos j).

Definition set_last_pos (v : option Z) (j : job) : job :=
  mkJob (cls j) (_start j) (_protocol j) (_name j) (_user j) (_lost_time j)
    (_last_elapsed j) (_storage j) (_path_in_storage j) (_path j)
    (_encoding j) (_size j) (_pos j) (_read_lines j) (_actual_lines j)
    (_cancel_pos j) (_handle j) (_remote j) (_filename j) (_status_interval j)
    (_status_timer j) (_active j) v.

(** ** The environment *)

(** The three log lines of [report_stats] and the one of [get_next]. *)
Inductive log_record : Type :=
| JobProcessed (elapsed : time)
| JobProcessedLines (elapsed : time) (lines : Z)
| JobProcessedRate (elapsed : time) (lines : Z)
| ExceptionWhileProcessingLine.

(** What a method does to the outside, in the order it does it.  A
    notification carries the job as the listener sees it at that moment. *)
Inductive event : Type :=
| Notify (cb : callback) (snapshot : job)
| Call (p : protocol) (c : protocol_call)
| Log (r : log_record)
| FileOpen (path : string)
| FileClose (path : string)
| TimerStart (interval : time).

(** [clock n] is the value of the [n]-th call of [monotonic()], [files]
    gives the decoded text of the local files that exist, [listeners] the
    protocols the job is registered on. *)
Record world : Type := mkWorld {
  clock : nat -> time;
  ticks : nat;
  files : string -> option string;
  listeners : list protocol;
  trace : list event
}.

Definition set_ticks (n : nat) (w : world) : world :=
  mkWorld (clock w) n (files w) (listeners w) (trace w).

Definition set_listeners (l : list protocol) (w : world) : world :=
  mkWorld (clock w) (ticks w) (files w) l (trace w).

Definition set_trace (t : list event) (w : world) : world :=
  mkWorld (clock w) (ticks w) (files w) (listeners w) t.

Definition state : Type := (job * world)%type.

(** ** Computations

    A call returns, raises, or never comes back; in each case the state
    keeps what was done until then. *)
Inductive outcome (A : Type) : Type :=
| Done (a : A)
| Raised (e : exn)
| Spins.

Arguments Done {A} a.
Arguments Raised {A} e.
Arguments Spins {A}.

Definition M (A : Type) : Type := state -> outcome A * state.

Definition ret {A} (a : A) : M A := fun s => (Done a, s).

Definition bind {A B} (m : M A) (k : A -> M B) : M B :=
  fun s =>
    match m s with
    | (Done a, s') => k a s'
    | (Raised e, s') => (Raised e, s')
    | (Spins, s') => (Spins, s')
    end.

Definition raise {A} (e : exn) : M A := fun s => (Raised e, s).

Definition spins {A} : M A := fun s => (Spins, s).

(** [try: body except Exception as e: handler e]. *)
Definition try_except {A} (body : M A) (handler : exn -> M A) : M A :=
  fun s =>
    match body s with
    | (Raised e, s') => handler e s'
    | r => r
    end.

Declare Scope job_scope.
Delimit Scope job_scope with job.
Notation "x <- m ;; k" := (bind m (fun x => k))
  (at level 61, m at next level, right associativity) : job_scope.
Notation "m ;; k" := (bind m (fun _ => k))
  (at level 61, right associativity) : job_scope.
Local Open Scope job_scope.

Definition get_self : M job := fun s => (Done (fst s), s).

Definition update (f : job -> job) : M unit :=
  fun s => (Done tt, (f (fst s), snd s)).

Definition emit (e : event) : M unit :=
  fun s => (Done tt, (fst s, set_trace (trace (snd s) ++ [e]) (snd s))).

(** [monotonic()]: the next reading of the clock. *)
Definition monotonic : M time :=
  fun s =>
    let w := snd s in
    (Done (clock w (ticks w)), (fst s, set_ticks (S (ticks w)) w)).

(** ** The collaborators *)

(** Modelled from the spec: the listener registry of the protocol
    ([octoprint.util.listener], not part of the module).  "A source holds a
    set of listener references"; registering and unregistering are
    "symmetric, idempotent-safe". *)
Definition registered (p : protocol) (l : list protocol) : bool :=
  existsb (Nat.eqb p) l.

Definition add_listener (p : protocol) (l : list protocol) : list protocol :=
  if registered p l then l else p :: l.

Definition remove_listener (p : protocol) (l : list protocol) : list protocol :=
  filter (fun q => negb (Nat.eqb p q)) l.

Definition registry_effect (p : protocol) (c : protocol_call) (w : world) : world :=
  match c with
  | register_listener => set_listeners (add_listener p (listeners w)) w
  | unregister_listener => set_listeners (remove_listener p (listeners w)) w
  | _ => w
  end.

(** [self._protocol.c(...)]: the attribute lookup fails on [None]. *)
Definition on_protocol (c : protocol_call) : M unit :=
  j <- get_self ;;
  match _protocol j with
  | None => raise AttributeError
  | Some p =>
      emit (Call p c) ;;
      (fun s => (Done tt, (fst s, registry_effect p c (snd s))))
  end.

(** [self.notify_listeners(cb, self)]. *)
Definition notify_listeners (cb : callback) : M unit :=
  j <- get_self ;; emit (Notify cb j).

(** Modelled from the spec: [octoprint.util.bom_aware_open], "an
    open-for-read operation yielding a seekable, line-readable text stream".
    The handle is the text still to be read; opening a file that does not
    exist fails. *)
Definition bom_aware_open (path : string) : M string :=
  fun s =>
    match files (snd s) path with
    | Some text => (emit (FileOpen path) ;; ret text) s
    | None => (Raised IOError, s)
    end.

(** [handle.readline()]: the text up to and including the first newline,
    the empty string at the end of the text; and what is left to read. *)
Fixpoint readline (text : string) : string * string :=
  match text with
  | EmptyString => (EmptyString, EmptyString)
  | String c rest =>
      if Ascii.eqb c "010"%char then (String c EmptyString, rest)
      else let (l, r) := readline rest in (String c l, r)
  end.

(** [handle.seek(position)]: offsets count decoded characters, which are
    the bytes of the file in a single-byte encoding. *)
Fixpoint seek (position : nat) (text : string) : string :=
  match position, text with
  | O, _ => text
  | S n, EmptyString => EmptyString
  | S n, String _ rest => seek n rest
  end.

Definition len (s : string) : Z := Z.of_nat (String.length s).

(** ** Text helpers *)

(** The characters [str.strip()] removes, among the code points below 256. *)
Definition isspace (c : ascii) : bool :=
  let n := nat_of_ascii c in
  ((9 <=? n) && (n <=? 13) || (28 <=? n) && (n <=? 32)
   || (n =? 133) || (n =? 160))%nat.

Fixpoint lstrip (s : string) : string :=
  match s with
  | EmptyString => EmptyString
  | String c rest => if isspace c then lstrip rest else s
  end.

Fixpoint rstrip (s : string) : string :=
  match s with
  | EmptyString => EmptyString
  | String c rest =>
      match rstrip rest with
      | EmptyString => if isspace c then EmptyString else String c EmptyString
      | rest' => String c rest'
      end
  end.

Definition strip (s : string) : string := rstrip (lstrip s).

Fixpoint before_semicolon (s : string) : string :=
  match s with
  | EmptyString => EmptyString
  | String c rest =>
      if Ascii.eqb c ";"%char then EmptyString
      else String c (before_semicolon rest)
  end.

(** Modelled from the spec: [strip_comment] of
    [octoprint.comm.protocol.reprap.util], which "strips a trailing/embedded
    comment according to the target command syntax": what follows the first
    semicolon goes, and the blanks before it. *)
Definition strip_comment (line : string) : string :=
  strip (before_semicolon line).

(** ** Properties of a job *)

Definition name (j : job) : option string := _name j.
Definition user (j : job) : option string := _user j.

Definition size (j : job) : option Z :=
  match cls j with
  | PrintjobC | StoragePrintjobC => None
  | _ => _size j
  end.

Definition pos (j : job) : option Z :=
  match cls j with
  | PrintjobC | StoragePrintjobC => None
  | SDFilePrintjobC => _last_pos j
  | _ => Some (_pos j)
  end.

Definition actual_lines (j : job) : Z := _actual_lines j.
Definition read_lines (j : job) : Z := _read_lines j.
Definition cancel_pos (j : job) : option Z := _cancel_pos j.
Definition storage (j : job) : string := _storage j.
Definition path_in_storage (j : job) : string := _path_in_storage j.
Definition path (j : job) : string := _path j.
Definition remote (j : job) : string := _remote j.
Definition status_interval (j : job) : time := _status_interval j.

(** [monotonic() - self._start if self._start is not None else None]. *)
Definition elapsed : M (option time) :=
  j <- get_self ;;
  match _start j with
  | Some t0 => now <- monotonic ;; ret (Some (now - t0))
  | None => ret None
  end.

Definition last_elapsed : M (option time) :=
  e <- elapsed ;;
  match e with
  | None => j <- get_self ;; ret (_last_elapsed j)
  | Some _ => ret e
  end.

Definition clean_elapsed : M (option time) :=
  e <- elapsed ;;
  match e with
  | None => ret None
  | Some t => j <- get_self ;; ret (Some (t - _lost_time j))
  end.




Definition is_not_None {A} (o : option A) : bool :=
  match o with Some _ => true | None => false end.

Definition active (j : job) : bool :=
  match cls j with
  | PrintjobC | StoragePrintjobC => is_not_None (_start j)
  | SDFilePrintjobC => is_not_None (_start j) && _active j
  | _ => is_not_None (_start j) && is_not_None (_handle j)
  end.

Definition add_to_lost_time (value : time) : M unit :=
  update (fun j => set_lost_time (_lost_time j + value) j).

(** ** Methods

    [C_m] is the body of method [m] as class [C] defines it; [m] alone is
    the call [self.m(...)], resolved on the class of [self]. *)

(** Truth value of an [elapsed] in an [if]. *)
Definition truthy (e : option time) : bool :=
  match e with
  | Some t => negb (Z.eqb t 0)
  | None => false
  end.

Definition Printjob_report_stats : M unit :=
  e <- elapsed ;;
  match e with
  | Some t => if truthy e then emit (Log (JobProcessed t)) else ret tt
  | None => ret tt
  end.

Definition LocalFilePrintjob_report_stats : M unit :=
  e <- elapsed ;;
  j <- get_self ;;
  let lines := _read_lines j in
  match e with
  | Some t =>
      if truthy e && negb (Z.eqb lines 0)
      then emit (Log (JobProcessedLines t lines)) else ret tt
  | None => ret tt
  end.

Definition LocalGcodeStreamjob_report_stats : M unit :=
  e <- elapsed ;;
  j <- get_self ;;
  let lines := _read_lines j in
  match e with
  | Some t =>
      if truthy e && negb (Z.eqb lines 0)
      then emit (Log (JobProcessedRate t lines)) else ret tt
  | None => ret tt
  end.

Definition report_stats : M unit :=
  j <- get_self ;;
  match cls j with
  | LocalGcodeStreamjobC => LocalGcodeStreamjob_report_stats
  | LocalFilePrintjobC | LocalGcodeFilePrintjobC => LocalFilePrintjob_report_stats
  | _ => Printjob_report_stats
  end.

(** [LocalFilePrintjob.close]; a failure of [handle.close()] is swallowed. *)
Definition close : M unit :=
  j <- get_self ;;
  match _handle j with
  | Some _ => emit (FileClose (_path j))
  | None => ret tt
  end ;;
  update (set_handle None).

Definition Printjob_reset_job : M unit :=
  j <- get_self ;;
  match _start j with
  | Some _ => e <- elapsed ;; update (set_last_elapsed e)
  | None => ret tt
  end ;;
  update (set_start None).

Definition LocalFilePrintjob_reset_job : M unit :=
  Printjob_reset_job ;;
  close ;;
  update (set_read_lines 0) ;;
  update (set_pos 0).

Definition SDFilePrintjob_reset_job : M unit :=
  update (set_active false) ;;
  update (set_last_pos None) ;;
  update (set_size None).

Definition reset_job : M unit :=
  j <- get_self ;;
  match cls j with
  | PrintjobC | StoragePrintjobC => Printjob_reset_job
  | SDFilePrintjobC => SDFilePrintjob_reset_job
  | _ => LocalFilePrintjob_reset_job
  end.

Definition process_job_started : M unit := notify_listeners on_job_started.
Definition process_job_paused : M unit := notify_listeners on_job_paused.
Definition process_job_resumed : M unit := notify_listeners on_job_resumed.
Definition process_job_progress : M unit := notify_listeners on_job_progress.

Definition Printjob_process_job_done : M unit :=
  notify_listeners on_job_done ;; report_stats ;; reset_job.

Definition Printjob_process_job_failed : M unit :=
  notify_listeners on_job_failed ;; report_stats ;; reset_job.

Definition Printjob_process_job_cancelled : M unit :=
  notify_listeners on_job_cancelled ;; report_stats ;; reset_job.

Definition LocalGcodeStreamjob_process_job_done : M unit :=
  on_protocol stop_recording_file ;;
  Printjob_process_job_done.

Definition LocalGcodeStreamjob_process_job_failed : M unit :=
  on_protocol stop_recording_file ;;
  Printjob_process_job_failed.

Definition LocalGcodeStreamjob_process_job_cancelled : M unit :=
  on_protocol stop_recording_file ;;
  j <- get_self ;;
  on_protocol (delete_file (_remote j)) ;;
  Printjob_process_job_cancelled.

Definition process_job_done : M unit :=
  j <- get_self ;;
  match cls j with
  | LocalGcodeStreamjobC => LocalGcodeStreamjob_process_job_done
  | _ => Printjob_process_job_done
  end.

Definition process_job_failed : M unit :=
  j <- get_self ;;
  match cls j with
  | LocalGcodeStreamjobC => LocalGcodeStreamjob_process_job_failed
  | _ => Printjob_process_job_failed
  end.

Definition process_job_cancelled : M unit :=
  j <- get_self ;;
  match cls j with
  | LocalGcodeStreamjobC => LocalGcodeStreamjob_process_job_cancelled
  | _ => Printjob_process_job_cancelled
  end.

Definition pause : M unit := process_job_paused.
Definition resume : M unit := process_job_resumed.

Definition Printjob_cancel (error : bool) : M unit :=
  (if error then process_job_failed else process_job_cancelled) ;;
  on_protocol unregister_listener ;;
  update (set_protocol None).

Definition LocalFilePrintjob_cancel (error : bool) : M unit :=
  j <- get_self ;;
  update (set_cancel_pos (pos j)) ;;
  Printjob_cancel error.

Definition cancel (error : bool) : M unit :=
  j <- get_self ;;
  if is_local (cls j) then LocalFilePrintjob_cancel error
  else Printjob_cancel error.

Definition Printjob_process (p : protocol) (position : Z) : M unit :=
  t <- monotonic ;;
  update (set_start (Some t)) ;;
  update (set_protocol (Some p)) ;;
  on_protocol register_listener.

Definition LocalFilePrintjob_process (p : protocol) (position : Z) : M unit :=
  Printjob_process p position ;;
  j <- get_self ;;
  h <- bom_aware_open (_path j) ;;
  update (set_handle (Some h)) ;;
  (if Z.ltb 0 position
   then update (set_handle (Some (seek (Z.to_nat position) h))) ;;
        update (set_pos position)
   else ret tt) ;;
  process_job_started.

Definition LocalGcodeStreamjob_process (p : protocol) (position : Z) : M unit :=
  LocalFilePrintjob_process p position ;;
  j <- get_self ;;
  on_protocol (record_file (_remote j)).

(** The [RepeatedTimer] runs beside the job; starting it is all that is
    kept of it. *)
Definition SDFilePrintjob_process (p : protocol) (position : Z)
    (tags : option (list string)) : M unit :=
  Printjob_process p position ;;
  on_protocol register_listener ;;
  j <- get_self ;;
  on_protocol (start_file_print (_filename j) position tags) ;;
  update (set_active true) ;;
  update (set_last_pos (Some position)) ;;
  update (set_status_timer (Some (_status_interval j))) ;;
  emit (TimerStart (_status_interval j)).

Definition process (p : protocol) (position : Z)
    (tags : option (list string)) : M unit :=
  j <- get_self ;;
  match cls j with
  | PrintjobC | StoragePrintjobC => Printjob_process p position
  | LocalFilePrintjobC | LocalGcodeFilePrintjobC =>
      LocalFilePrintjob_process p position
  | LocalGcodeStreamjobC => LocalGcodeStreamjob_process p position
  | SDFilePrintjobC => SDFilePrintjob_process p position tags
  end.

Definition LocalFilePrintjob_process_line (line : string) : option string :=
  Some line.

Definition LocalGcodeFilePrintjob_process_line (line : string) : option string :=
  let processed := strip line in
  let processed := strip_comment processed in
  if Z.eqb (len processed) 0 then None else Some processed.

Definition process_line (c : job_class) (line : string) : option string :=
  match c with
  | LocalGcodeFilePrintjobC | LocalGcodeStreamjobC =>
      LocalGcodeFilePrintjob_process_line line
  | _ => LocalFilePrintjob_process_line line
  end.

(** The loop of [LocalFilePrintjob.get_next], with what follows it on the
    way out.  [rounds] bounds the number of rounds; a loop that would go
    on after them [spins]. *)
Fixpoint get_next_loop (rounds : nat) : M (option string) :=
  match rounds with
  | O => spins
  | S rounds' =>
      j <- get_self ;;
      match _handle j with
      | None =>
          (* file got closed just now *)
          process_job_done ;;
          ret None
      | Some h =>
          let (line, rest) := readline h in
          update (set_handle (Some rest)) ;;
          update (fun j => set_pos (_pos j + len line) j) ;;
          update (fun j => set_actual_lines (_actual_lines j + 1) j) ;;
          (if Z.eqb (len line) 0 then process_job_done else ret tt) ;;
          j <- get_self ;;
          match process_line (cls j) line with
          | None => get_next_loop rounds'
          | Some processed =>
              update (fun j => set_read_lines (_read_lines j + 1) j) ;;
              process_job_progress ;;
              ret (Some processed)
          end
      end
  end.

(** Rounds that exhaust any text: one for each character, one for the end
    of the text, one for the closed handle. *)
Definition rounds_for (h : string) : nat := S (S (String.length h)).

(** [LocalFilePrintjob.get_next].  On a closed handle the [raise] line
    formats its message with [%] on a template that has no conversion
    specifier, so the formatting raises [TypeError] and the [ValueError] is
    never built. *)
Definition LocalFilePrintjob_get_next : M (option string) :=
  j <- get_self ;;
  match _handle j with
  | None => raise TypeError
  | Some h =>
      try_except
        (get_next_loop (rounds_for h))
        (fun e =>
           cancel true ;;
           emit (Log ExceptionWhileProcessingLine) ;;
           raise e)
  end.

Definition Printjob_get_next : M (option string) := ret None.

Definition get_next : M (option string) :=
  j <- get_self ;;
  if is_local (cls j) then LocalFilePrintjob_get_next else Printjob_get_next.

(** [Printjob.on_protocol_state]. *)
Definition on_protocol_state (old_state new_state : ProtocolState) : M unit :=
  j <- get_self ;;
  match new_state with
  | DISCONNECTED | DISCONNECTED_WITH_ERROR =>
      if active j then cancel true else ret tt
  | OTHER_STATE _ => ret tt
  end.

(** The callbacks of [SDFilePrintjob]. *)
Definition on_protocol_file_status (pos total : Z) : M unit :=
  update (set_last_pos (Some pos)) ;;
  update (set_size (Some total)) ;;
  process_job_progress.

Definition on_protocol_file_print_started (name : string) (size : Z) : M unit :=
  update (set_size (Some size)) ;;
  process_job_started.

Definition on_protocol_file_print_done : M unit := process_job_done.

(** ** Constructors *)

(** Attributes no constructor of the class sets are left blank. *)
Definition Printjob_init (c : job_class) (name user : option string) : job :=
  {| cls := c; _start := None; _protocol := None; _name := name;
     _user := user; _lost_time := 0; _last_elapsed := None;
     _storage := ""; _path_in_storage := ""; _path := ""; _encoding := "";
     _size := None; _pos := 0; _read_lines := 0; _actual_lines := 0;
     _cancel_pos := None; _handle := None; _remote := ""; _filename := "";
     _status_interval := 0; _status_timer := None; _active := false;
     _last_pos := None |}.

Definition StoragePrintjob_init (c : job_class) (storage path_in_storage : string)
    (name user : option string) : job :=
  let j := Printjob_init c name user in
  mkJob (cls j) (_start j) (_protocol j) (_name j) (_user j) (_lost_time j)
    (_last_elapsed j) storage path_in_storage (_path j) (_encoding j)
    (_size j) (_pos j) (_read_lines j) (_actual_lines j) (_cancel_pos j)
    (_handle j) (_remote j) (_filename j) (_status_interval j)
    (_status_timer j) (_active j) (_last_pos j).

(** [LocalFilePrintjob.__init__]; [os.stat(path).st_size] is the length of
    the text, one character for each byte. *)
Definition LocalFilePrintjob_init (c : job_class) (path : option string)
    (storage path_in_storage : string) (name user : option string)
    (encoding : string) (w : world) : outcome job :=
  match path with
  | None => Raised ValueError
  | Some path =>
      match files w path with
      | None => Raised ValueError
      | Some text =>
          let j := StoragePrintjob_init c storage path_in_storage name user in
          Done
            (mkJob (cls j) (_start j) (_protocol j) (_name j) (_user j)
               (_lost_time j) (_last_elapsed j) (_storage j)
               (_path_in_storage j) path encoding (Some (len text)) 0 0 0
               None None (_remote j) (_filename j) (_status_interval j)
               (_status_timer j) (_active j) (_last_pos j))
      end
  end.

Definition LocalGcodeFilePrintjob_init :=
  LocalFilePrintjob_init LocalGcodeFilePrintjobC.

Definition LocalGcodeStreamjob_init (remote : string) (path : option string)
    (storage path_in_storage : string) (name user : option string)
    (encoding : string) (w : world) : outcome job :=
  match LocalFilePrintjob_init LocalGcodeStreamjobC path storage
          path_in_storage name user encoding w with
  | Done j =>
      Done
        (mkJob (cls j) (_start j) (_protocol j) (_name j) (_user j)
           (_lost_time j) (_last_elapsed j) (_storage j) (_path_in_storage j)
           (_path j) (_encoding j) (_size j) (_pos j) (_read_lines j)
           (_actual_lines j) (_cancel_pos j) (_handle j) remote (_filename j)
           (_status_interval j) (_status_timer j) (_active j) (_last_pos j))
  | r => r
  end.

(** [LocalGcodeStreamjob.from_job]. *)
Definition from_job (j : job) (remote : string) (w : world) : outcome job :=
  match cls j with
  | LocalGcodeFilePrintjobC | LocalGcodeStreamjobC =>
      LocalGcodeStreamjob_init remote (Some (_path j)) (_storage j)
        (_path_in_storage j) (_name j) (_user j) (_encoding j) w
  | _ => Raised ValueError
  end.

Definition SDFilePrintjob_init (path : string) (status_interval : time) : job :=
  let name :=
    match path with
    | String "/"%char rest => rest
    | _ => path
    end in
  let j := StoragePrintjob_init SDFilePrintjobC "sdcard" name (Some name) None in
  mkJob (cls j) (_start j) (_protocol j) (_name j) (_user j) (_lost_time j)
    (_last_elapsed j) (_storage j) (_path_in_storage j) (_path j)
    (_encoding j) None (_pos j) (_read_lines j) (_actual_lines j)
    (_cancel_pos j) (_handle j) (_remote j) path status_interval None false
    None.

(** ** Running and observing *)

(** The state a call leaves, and its outcome. *)
Definition after {A} (m : M A) (s : state) : state := snd (m s).
Definition result {A} (m : M A) (s : state) : outcome A := fst (m s).

(** The callbacks notified, in order. *)
Fixpoint notifications (t : list event) : list callback :=
  match t with
  | [] => []
  | Notify cb _ :: t' => cb :: notifications t'
  | _ :: t' => notifications t'
  end.

Definition callback_eq_dec (a b : callback) : {a = b} + {a <> b}.
Proof. decide equality. Defined.

(** How often [cb] was notified. *)
Definition count_notified (cb : callback) (t : list event) : nat :=
  count_occ callback_eq_dec (notifications t) cb.

(** How often a run was ended. *)
Definition count_terminal (t : list event) : nat :=
  List.length (filter terminal (notifications t)).


(** ** What the end of a run leaves

    [wrapped_up cb j w j' w'] describes the three steps every terminal
    transition shares (notify, report, reset), from job [j] in [w] to
    [j'] in [w']. *)

Definition kept (j j' : job) : Prop :=
  cls j' = cls j /\ _protocol j' = _protocol j /\ _remote j' = _remote j /\
  _path j' = _path j /\ _actual_lines j' = _actual_lines j /\
  _cancel_pos j' = _cancel_pos j.

Definition was_reset (j j' : job) : Prop :=
  match cls j with
  | PrintjobC | StoragePrintjobC => _start j' = None
  | SDFilePrintjobC =>
      _start j' = _start j /\ _last_elapsed j' = _last_elapsed j /\
      _active j' = false /\ _last_pos j' = None /\ _size j' = None
  | _ =>
      _start j' = None /\ _handle j' = None /\ _pos j' = 0 /\
      _read_lines j' = 0
  end.

Definition is_log (e : event) : Prop := exists r, e = Log r.

(** The closing of the handle, when there is one to close. *)
Definition closing (j : job) : list event :=
  if is_local (cls j) then
    match _handle j with
    | Some _ => [FileClose (_path j)]
    | None => []
    end
  else [].

Definition wrapped_up (cb : callback) (j : job) (w : world)
    (j' : job) (w' : world) : Prop :=
  kept j j' /\ was_reset j j' /\
  clock w' = clock w /\ files w' = files w /\ listeners w' = listeners w /\
  exists stats,
    Forall is_log stats /\
    trace w' = trace w ++ Notify cb j :: stats ++ closing j.

(** The callback [cancel] ends with, and the job as [cancel] notifies it. *)
Definition cancel_callback (error : bool) : callback :=
  if error then on_job_failed else on_job_cancelled.

Definition marked (j : job) : job :=
  if is_local (cls j) then set_cancel_pos (pos j) j else j.

(** The job after one read of [get_next]. *)
Definition read_one (line rest : string) (j : job) : job :=
  set_actual_lines (_actual_lines j + 1)
    (set_pos (_pos j + len line) (set_handle (Some rest) j)).

(** ** The scenarios *)

Definition nl : string := String "010"%char EmptyString.

(** The three lines ["G1 X1\n"], ["; comment\n"], ["G1 Y1\n"]. *)
Definition three_lines : string :=
  ("G1 X1" ++ nl ++ "; comment" ++ nl ++ "G1 Y1" ++ nl)%string.

(** A disk with one file, a clock that advances by 10 at each reading. *)
Definition world0 : world :=
  {| clock := fun n => 100 + 10 * Z.of_nat n;
     ticks := 0%nat;
     files := fun p => if String.eqb p "/a.gcode" then Some three_lines else None;
     listeners := [];
     trace := [] |}.

Definition built (o : outcome job) : job :=
  match o with
  | Done j => j
  | _ => Printjob_init PrintjobC None None
  end.

Definition gcode_job : job :=
  built (LocalGcodeFilePrintjob_init (Some "/a.gcode") "local" "a.gcode"
           (Some "a.gcode") None "utf-8" world0).

Definition stream_job : job := built (from_job gcode_job "a.gco" world0).

Definition sd_job : job := SDFilePrintjob_init "/x.gco" 2000.

Definition base_job : job := Printjob_init PrintjobC (Some "job") None.

(** The protocol the scenarios run on, and another one. *)
Definition port : protocol := 7%nat.
Definition other_port : protocol := 8%nat.

(** One full run of a local job: [process], then [get_next] three times. *)
Definition full_run : M (option string) :=
  process port 0 None ;; get_next ;; get_next ;; get_next.



(** ** Auxiliary notions of the statements *)

(** What a recording job tells the protocol before it ends a run. *)
Definition recording_stop (error : bool) (j : job) (p : protocol) : list event :=
  match cls j with
  | LocalGcodeStreamjobC =>
      Call p stop_recording_file ::
      (if error then [] else [Call p (delete_file (_remote j))])
  | _ => []
  end.

(** The handler of [get_next]. *)
Definition get_next_handler (e : exn) : M (option string) :=
  cancel true ;; emit (Log ExceptionWhileProcessingLine) ;; raise e.

(** A local job can be started when its file is still there. *)
Definition can_open (j : job) (w : world) : bool :=
  if is_local (cls j) then is_not_None (files w (_path j)) else true.

Definition is_recording (c : job_class) : bool :=
  match c with
  | LocalGcodeStreamjobC => true
  | _ => false
  end.

(** The scenario of the local job at four moments: started, after the two
    lines, at the end of the text, and after a second full run. *)
Definition started : state := after (process port 0 None) (gcode_job, world0).
Definition two_lines_read : state := after (get_next ;; get_next) started.
Definition completed : state := after get_next two_lines_read.
Definition completed_twice : state := after full_run completed.

(** The device-resident job after its two status callbacks. *)
Definition sd_printing : state :=
  after (process port 0 None ;;
         on_protocol_file_print_started "x" 1000 ;;
         on_protocol_file_status 200 1000 ;;
         on_protocol_file_status 1000 1000) (sd_job, world0).


(** The rounds a job still needs: one for the closed handle, or those of
    the text that is left. *)
Definition rounds_left (j : job) : nat :=
  match _handle j with
  | None => 1
  | Some h => rounds_for h
  end.

(** ** The lines of a text *)




(** The counters of a local job are in order. *)
Definition counted (j : job) : Prop :=
  0 <= _read_lines j /\ _read_lines j <= _actual_lines j.


(** What the end of a run does to the counters of a local job, however the
    call ends. *)
Definition recounted (j j' : job) : Prop :=
  cls j' = cls j /\ _actual_lines j' = _actual_lines j /\
  (_read_lines j' = _read_lines j \/ _read_lines j' = 0).

(** A state whose job is a local job with its counters in order. *)
Definition in_order (s : state) : Prop :=
  is_local (cls (fst s)) = true /\ counted (fst s).

(** The three ways a run ends, the method of each and its callback. *)
Inductive ending : Type :=
| Finished
| Failed
| Cancelled.

Definition run_ending (e : ending) : M unit :=
  match e with
  | Finished => process_job_done
  | Failed => process_job_failed
  | Cancelled => process_job_cancelled
  end.

Definition ending_callback (e : ending) : callback :=
  match e with
  | Finished => on_job_done
  | Failed => on_job_failed
  | Cancelled => on_job_cancelled
  end.

(** The steps every ending shares. *)
Definition wrap_up (cb : callback) : M unit :=
  notify_listeners cb ;; report_stats ;; reset_job.

(** A job that can end a run: it is not a recording job, or it is bound. *)
Definition can_end (j : job) : Prop :=
  cls j <> LocalGcodeStreamjobC \/ exists p, _protocol j = Some p.

(** The calls a recording job makes on its protocol before an ending. *)
Definition recording_calls (e : ending) (j : job) (p : protocol) : list event :=
  match e with
  | Cancelled => [Call p stop_recording_file; Call p (delete_file (_remote j))]
  | _ => [Call p stop_recording_file]
  end.

(** ** The event payload

    A payload is a dictionary from strings to values.  [_event_data] is set
    by the constructor and never written again; the methods below take
    it as an argument. *)

Inductive pyvalue : Type :=
| PyNone
| PyStr (s : string)
| PyInt (n : Z).

Definition dict : Type := list (string * pyvalue).

Fixpoint dict_get (k : string) (d : dict) : option pyvalue :=
  match d with
  | [] => None
  | (k', v) :: d' => if String.eqb k k' then Some v else dict_get k d'
  end.

(** [d[k] = v]: the entry of [k] is replaced where it is, or added at the
    end. *)
Fixpoint dict_set (k : string) (v : pyvalue) (d : dict) : dict :=
  match d with
  | [] => [(k, v)]
  | (k', v') :: d' =>
      if String.eqb k k' then (k, v) :: d' else (k', v') :: dict_set k v d'
  end.

Definition py_of_string (o : option string) : pyvalue :=
  match o with
  | Some s => PyStr s
  | None => PyNone
  end.

Definition py_of_int (o : option Z) : pyvalue :=
  match o with
  | Some n => PyInt n
  | None => PyNone
  end.

Definition Printjob_event_payload (event_data : dict) (j : job) : dict :=
  let payload := event_data in
  dict_set "user" (py_of_string (_user j)) payload.

Definition StoragePrintjob_event_payload (event_data : dict) (j : job) : dict :=
  let payload := Printjob_event_payload event_data j in
  let payload := dict_set "name" (py_of_string (name j)) payload in
  let payload := dict_set "path" (PyStr (path_in_storage j)) payload in
  dict_set "origin" (PyStr (storage j)) payload.

Definition LocalFilePrintjob_event_payload (event_data : dict) (j : job) : dict :=
  let event_data := StoragePrintjob_event_payload event_data j in
  dict_set "size" (py_of_int (size j)) event_data.

Definition event_payload (event_data : dict) (j : job) : dict :=
  match cls j with
  | PrintjobC => Printjob_event_payload event_data j
  | StoragePrintjobC | SDFilePrintjobC => StoragePrintjob_event_payload event_data j
  | _ => LocalFilePrintjob_event_payload event_data j
  end.

(** The [event_data] that [SDFilePrintjob.__init__] builds for [path]. *)
Definition SDFilePrintjob_event_data (path : string) : dict :=
  [("name", PyStr (match path with String "/"%char rest => rest | _ => path end));
   ("path", PyStr path);
   ("origin", PyStr "sdcard")].


(** The local job of the scenario after its first line. *)
Definition one_line_read : state := after get_next started.

(** A plain local job on the same file, after it has read the three
    lines. *)
Definition plain_job : job :=
  built (LocalFilePrintjob_init LocalFilePrintjobC (Some "/a.gcode") "local"
           "a.gcode" (Some "a.gcode") None "utf-8" world0).

Definition plain_at_end : state :=
  after (process port 0 None ;; get_next ;; get_next ;; get_next)
    (plain_job, world0).

(** * Properties *)

(** ** The monad and the trace *)

Lemma bind_Done {A B} (m : M A) (k : A -> M B) (s s' : state) (a : A) :
  m s = (Done a, s') -> (x <- m ;; k x) s = k a s'.
Proof. intros H. unfold bind. rewrite H. reflexivity. Qed.

Lemma bind_Raised {A B} (m : M A) (k : A -> M B) (s s' : state) (e : exn) :
  m s = (Raised e, s') -> (x <- m ;; k x) s = (Raised e, s').
Proof. intros H. unfold bind. rewrite H. reflexivity. Qed.

Lemma notifications_app (t1 t2 : list event) :
  notifications (t1 ++ t2) = notifications t1 ++ notifications t2.
Proof.
  induction t1 as [|e t1 IH]; [reflexivity|].
  destruct e; simpl; rewrite IH; reflexivity.
Qed.

Lemma notifications_logs (t : list event) :
  Forall is_log t -> notifications t = [].
Proof.
  induction 1 as [|e t [r ->] _ IH]; [reflexivity|exact IH].
Qed.

Lemma notifications_closing (j : job) : notifications (closing j) = [].
Proof.
  unfold closing. destruct (is_local (cls j)), (_handle j); reflexivity.
Qed.

Lemma registered_remove (p : protocol) (l : list protocol) :
  registered p (remove_listener p l) = false.
Proof.
  unfold registered, remove_listener.
  induction l as [|q l IH]; [reflexivity|].
  simpl. destruct (Nat.eqb p q) eqn:E; simpl; [exact IH|].
  rewrite E. exact IH.
Qed.

Lemma registered_add (p : protocol) (l : list protocol) :
  registered p (add_listener p l) = true.
Proof.
  unfold add_listener. destruct (registered p l) eqn:E; [exact E|].
  unfold registered. simpl. rewrite Nat.eqb_refl. reflexivity.
Qed.

(** ** The calls on the protocol *)

Lemma on_protocol_unbound (c : protocol_call) (j : job) (w : world) :
  _protocol j = None -> on_protocol c (j, w) = (Raised AttributeError, (j, w)).
Proof.
  intros H. unfold on_protocol, bind, get_self. simpl. rewrite H. reflexivity.
Qed.

Lemma on_protocol_bound (c : protocol_call) (p : protocol) (j : job) (w : world) :
  _protocol j = Some p ->
  on_protocol c (j, w) =
    (Done tt, (j, registry_effect p c (set_trace (trace w ++ [Call p c]) w))).
Proof.
  intros H. unfold on_protocol, bind, get_self. simpl. rewrite H. reflexivity.
Qed.

(** ** The end of a run *)

Ltac unfold_wrap_up :=
  unfold report_stats, Printjob_report_stats, LocalFilePrintjob_report_stats,
    LocalGcodeStreamjob_report_stats, reset_job, Printjob_reset_job,
    LocalFilePrintjob_reset_job, SDFilePrintjob_reset_job, close, elapsed,
    notify_listeners, monotonic, emit, update, get_self, bind, ret, truthy.

(** Notify, report and reset always come back, and leave the job reset as
    its class resets it. *)
Lemma terminal_handling (cb : callback) (j : job) (w : world) :
  exists j' w',
    (notify_listeners cb ;; report_stats ;; reset_job) (j, w)
      = (Done tt, (j', w')) /\
    wrapped_up cb j w j' w'.
Proof.
  destruct j as [c st pr nm us lt le sto pis pa en sz po rl al cp ha re fi
                 si sti ac lp].
  destruct w as [ck tk fs ls tr].
  unfold_wrap_up.
  destruct c, st as [t0|], ha as [h|]; cbn -[app];
    try destruct (Z.eqb (ck tk - t0) 0); cbn -[app];
    try destruct (Z.eqb rl 0); cbn -[app].
  all: eexists; eexists; (split; [reflexivity|]).
  all: unfold wrapped_up, kept, was_reset, closing; cbn -[app].
  all: repeat split.
  all: first
    [ exists []; split; [constructor|]; rewrite <- ?app_assoc; reflexivity
    | eexists [_]; split; [repeat constructor; eexists; reflexivity|];
      rewrite <- ?app_assoc; reflexivity ].
Qed.

Lemma wrapped_up_notifications cb j w j' w' :
  wrapped_up cb j w j' w' ->
  notifications (trace w') = notifications (trace w) ++ [cb].
Proof.
  intros (_ & _ & _ & _ & _ & stats & Hlog & ->).
  rewrite notifications_app. simpl.
  rewrite notifications_app, (notifications_logs _ Hlog), notifications_closing.
  reflexivity.
Qed.

(** A class that does not record ends its runs with the three steps alone. *)
Lemma process_job_done_plain (j : job) (w : world) :
  cls j <> LocalGcodeStreamjobC ->
  process_job_done (j, w) = (notify_listeners on_job_done ;; report_stats ;; reset_job) (j, w).
Proof.
  intros H. unfold process_job_done, bind at 1, get_self. simpl.
  destruct (cls j); try reflexivity. contradiction.
Qed.

Lemma process_job_failed_plain (j : job) (w : world) :
  cls j <> LocalGcodeStreamjobC ->
  process_job_failed (j, w) = (notify_listeners on_job_failed ;; report_stats ;; reset_job) (j, w).
Proof.
  intros H. unfold process_job_failed, bind at 1, get_self. simpl.
  destruct (cls j); try reflexivity. contradiction.
Qed.

Lemma process_job_cancelled_plain (j : job) (w : world) :
  cls j <> LocalGcodeStreamjobC ->
  process_job_cancelled (j, w) = (notify_listeners on_job_cancelled ;; report_stats ;; reset_job) (j, w).
Proof.
  intros H. unfold process_job_cancelled, bind at 1, get_self. simpl.
  destruct (cls j); try reflexivity. contradiction.
Qed.

(** ** Cancelling *)

Lemma cancel_marks (error : bool) (j : job) (w : world) :
  cancel error (j, w) = Printjob_cancel error (marked j, w).
Proof.
  unfold cancel, marked, LocalFilePrintjob_cancel, bind, get_self, update.
  simpl. destruct (is_local (cls j)); reflexivity.
Qed.

Lemma marked_cls (j : job) : cls (marked j) = cls j.
Proof. unfold marked. destruct (is_local (cls j)); reflexivity. Qed.

Lemma marked_protocol (j : job) : _protocol (marked j) = _protocol j.
Proof. unfold marked. destruct (is_local (cls j)); reflexivity. Qed.

Lemma marked_remote (j : job) : _remote (marked j) = _remote j.
Proof. unfold marked. destruct (is_local (cls j)); reflexivity. Qed.

Lemma marked_closing (j : job) : closing (marked j) = closing j.
Proof.
  unfold marked, closing.
  destruct (is_local (cls j)) eqn:E; simpl; rewrite ?E; reflexivity.
Qed.

(** The failed or cancelled end of a job that is not recording. *)
Lemma ending_plain (error : bool) (j : job) (w : world) :
  cls j <> LocalGcodeStreamjobC ->
  exists j' w',
    (if error then process_job_failed else process_job_cancelled) (j, w)
      = (Done tt, (j', w')) /\
    wrapped_up (cancel_callback error) j w j' w'.
Proof.
  intros H. destruct error; simpl.
  - rewrite (process_job_failed_plain j w H). apply terminal_handling.
  - rewrite (process_job_cancelled_plain j w H). apply terminal_handling.
Qed.

(** The same end on a bound protocol, for every class. *)
Lemma ending_bound (error : bool) (j : job) (w : world) (p : protocol) :
  _protocol j = Some p ->
  exists j' w',
    (if error then process_job_failed else process_job_cancelled) (j, w)
      = (Done tt, (j', w')) /\
    wrapped_up (cancel_callback error) j
      (set_trace (trace w ++ recording_stop error j p) w) j' w'.
Proof.
  intros Hp.
  destruct (cls j) eqn:Hc.
  1-4, 6:
    destruct (ending_plain error j w) as (j' & w' & E & W);
      [rewrite Hc; discriminate|];
    exists j', w'; split; [exact E|];
    unfold recording_stop; rewrite Hc;
    destruct W as (K & R & W1 & W2 & W3 & stats & L & T);
    (split; [exact K|]); (split; [exact R|]);
    (split; [exact W1|]); (split; [exact W2|]); (split; [exact W3|]);
    exists stats; split; [exact L|]; simpl; rewrite app_nil_r; exact T.
  destruct error; simpl.
  - unfold process_job_failed, bind at 1, get_self. simpl. rewrite Hc.
    unfold LocalGcodeStreamjob_process_job_failed.
    rewrite (bind_Done _ _ _ _ _ (on_protocol_bound stop_recording_file p j w Hp)).
    unfold recording_stop. rewrite Hc. simpl registry_effect.
    apply terminal_handling.
  - unfold process_job_cancelled, bind at 1, get_self. simpl. rewrite Hc.
    unfold LocalGcodeStreamjob_process_job_cancelled.
    rewrite (bind_Done _ _ _ _ _ (on_protocol_bound stop_recording_file p j w Hp)).
    simpl registry_effect.
    unfold bind at 1, get_self. simpl fst.
    rewrite (bind_Done _ _ _ _ _ (on_protocol_bound (delete_file (_remote j)) p j _ Hp)).
    unfold recording_stop. rewrite Hc. simpl registry_effect.
    destruct (terminal_handling on_job_cancelled j
                (set_trace
                   (trace (set_trace (trace w ++ [Call p stop_recording_file]) w) ++
                    [Call p (delete_file (_remote j))])
                   (set_trace (trace w ++ [Call p stop_recording_file]) w)))
      as (j' & w' & E & W).
    exists j', w'. split; [exact E|].
    destruct W as (K & R & W1 & W2 & W3 & stats & L & T).
    (split; [exact K|]); (split; [exact R|]).
    (split; [exact W1|]); (split; [exact W2|]); (split; [exact W3|]).
    exists stats. split; [exact L|]. rewrite T. simpl.
    rewrite <- !app_assoc. reflexivity.
Qed.

(** [cancel] on a bound protocol comes back, for every class: the job is
    reset, the reference is gone and the registration with it. *)
Lemma cancel_bound (error : bool) (j : job) (w : world) (p : protocol) :
  _protocol j = Some p ->
  exists j' w' stats,
    cancel error (j, w) = (Done tt, (j', w')) /\
    _protocol j' = None /\ cls j' = cls j /\
    was_reset (marked j) j' /\
    listeners w' = remove_listener p (listeners w) /\
    Forall is_log stats /\
    trace w' =
      trace w ++ recording_stop error j p ++
      Notify (cancel_callback error) (marked j) :: stats ++ closing j ++
      [Call p unregister_listener].
Proof.
  intros Hp. rewrite cancel_marks. unfold Printjob_cancel.
  assert (Hm : _protocol (marked j) = Some p) by (rewrite marked_protocol; exact Hp).
  destruct (ending_bound error (marked j) w p Hm) as (j1 & w1 & E & W).
  rewrite (bind_Done _ _ _ _ _ E).
  destruct W as ((K1 & K2 & K3 & K4 & K5 & K6) & R & W1 & W2 & W3 & stats & L & T).
  assert (Hp1 : _protocol j1 = Some p) by (rewrite K2; exact Hm).
  rewrite (bind_Done _ _ _ _ _ (on_protocol_bound unregister_listener p j1 w1 Hp1)).
  unfold update. simpl.
  eexists; eexists; exists stats. split; [reflexivity|].
  simpl. split; [reflexivity|]. split; [rewrite K1; apply marked_cls|].
  split.
  { destruct j1; unfold was_reset in *; simpl in *.
    destruct (cls (marked j)); exact R. }
  split; [rewrite W3; reflexivity|]. split; [exact L|].
  rewrite T. simpl.
  unfold recording_stop. rewrite marked_cls, marked_remote, marked_closing.
  rewrite <- !app_assoc. simpl. rewrite <- !app_assoc. reflexivity.
Qed.

(** [cancel] without a protocol, on a job that is not recording: the run
    is ended in full, then the call on the missing protocol raises. *)
Lemma cancel_unbound (error : bool) (j : job) (w : world) :
  cls j <> LocalGcodeStreamjobC -> _protocol j = None ->
  exists j' w',
    cancel error (j, w) = (Raised AttributeError, (j', w')) /\
    wrapped_up (cancel_callback error) (marked j) w j' w'.
Proof.
  intros Hc Hp. rewrite cancel_marks. unfold Printjob_cancel.
  assert (Hc' : cls (marked j) <> LocalGcodeStreamjobC) by (rewrite marked_cls; exact Hc).
  destruct (ending_plain error (marked j) w Hc') as (j1 & w1 & E & W).
  rewrite (bind_Done _ _ _ _ _ E).
  assert (Hp1 : _protocol j1 = None).
  { destruct W as ((_ & K2 & _) & _). rewrite K2, marked_protocol. exact Hp. }
  rewrite (bind_Raised _ _ _ _ _ (on_protocol_unbound unregister_listener j1 w1 Hp1)).
  exists j1, w1. split; [reflexivity|exact W].
Qed.

(** A recording job without a protocol stops at its first call. *)
Lemma cancel_unbound_recording (error : bool) (j : job) (w : world) :
  cls j = LocalGcodeStreamjobC -> _protocol j = None ->
  cancel error (j, w) = (Raised AttributeError, (marked j, w)).
Proof.
  intros Hc Hp. rewrite cancel_marks. unfold Printjob_cancel.
  assert (Hm : _protocol (marked j) = None) by (rewrite marked_protocol; exact Hp).
  assert (E : (if error then process_job_failed else process_job_cancelled) (marked j, w)
              = (Raised AttributeError, (marked j, w))).
  { destruct error.
    - unfold process_job_failed, bind at 1, get_self. simpl.
      rewrite marked_cls, Hc. unfold LocalGcodeStreamjob_process_job_failed.
      apply bind_Raised, on_protocol_unbound, Hm.
    - unfold process_job_cancelled, bind at 1, get_self. simpl.
      rewrite marked_cls, Hc. unfold LocalGcodeStreamjob_process_job_cancelled.
      apply bind_Raised, on_protocol_unbound, Hm. }
  apply bind_Raised, E.
Qed.

(** [cancel] on a job without a protocol, whatever its class. *)
Lemma cancel_unbound_summary (s : state) (error : bool) :
  _protocol (fst s) = None ->
  result (cancel error) s = Raised AttributeError /\
  _protocol (fst (after (cancel error) s)) = None /\
  cls (fst (after (cancel error) s)) = cls (fst s) /\
  notifications (trace (snd (after (cancel error) s)))
    = notifications (trace (snd s)) ++
      (if is_recording (cls (fst s)) then [] else [cancel_callback error]) /\
  (is_recording (cls (fst s)) = false ->
   was_reset (marked (fst s)) (fst (after (cancel error) s))).
Proof.
  destruct s as [j w]. simpl fst. simpl snd. intros Hp.
  unfold result, after.
  destruct (is_recording (cls j)) eqn:Hr.
  - assert (Hc : cls j = LocalGcodeStreamjobC)
      by (destruct (cls j); try discriminate Hr; reflexivity).
    rewrite (cancel_unbound_recording error j w Hc Hp). simpl.
    rewrite marked_protocol, marked_cls, app_nil_r.
    repeat split; try assumption. discriminate.
  - assert (Hc : cls j <> LocalGcodeStreamjobC)
      by (intros Hc; rewrite Hc in Hr; discriminate Hr).
    destruct (cancel_unbound error j w Hc Hp) as (j' & w' & E & W).
    rewrite E. simpl.
    rewrite (wrapped_up_notifications _ _ _ _ _ W).
    destruct W as ((K1 & K2 & _) & R & _).
    rewrite K1, K2, marked_cls, marked_protocol.
    repeat split; try assumption. intros _. exact R.
Qed.

(** ** Reading lines *)

Lemma get_next_loop_closed (n : nat) (j : job) (w : world) :
  _handle j = None ->
  get_next_loop (S n) (j, w) = (process_job_done ;; ret None) (j, w).
Proof.
  intros H. simpl get_next_loop. unfold bind at 1, get_self at 1.
  change (fst (j, w)) with j. rewrite H. reflexivity.
Qed.

Lemma get_next_loop_open (n : nat) (j : job) (w : world) (h : string) :
  _handle j = Some h ->
  get_next_loop (S n) (j, w) =
    ((if Z.eqb (len (fst (readline h))) 0 then process_job_done else ret tt) ;;
     j <- get_self ;;
     match process_line (cls j) (fst (readline h)) with
     | None => get_next_loop n
     | Some processed =>
         update (fun j => set_read_lines (_read_lines j + 1) j) ;;
         process_job_progress ;;
         ret (Some processed)
     end)
      (read_one (fst (readline h)) (snd (readline h)) j, w).
Proof.
  intros H. simpl get_next_loop. unfold bind at 1, get_self at 1.
  change (fst (j, w)) with j. rewrite H.
  destruct (readline h) as [line rest]. reflexivity.
Qed.

Lemma get_next_open (j : job) (w : world) (h : string) :
  is_local (cls j) = true -> _handle j = Some h ->
  get_next (j, w) =
    try_except (get_next_loop (rounds_for h)) get_next_handler (j, w).
Proof.
  intros Hc Hh. unfold get_next, bind at 1, get_self at 1.
  change (fst (j, w)) with j. rewrite Hc.
  unfold LocalFilePrintjob_get_next, bind at 1, get_self at 1.
  change (fst (j, w)) with j. rewrite Hh. reflexivity.
Qed.

Lemma get_next_closed (j : job) (w : world) :
  is_local (cls j) = true -> _handle j = None ->
  get_next (j, w) = (Raised TypeError, (j, w)).
Proof.
  intros Hc Hh. unfold get_next, bind at 1, get_self at 1.
  change (fst (j, w)) with j. rewrite Hc.
  unfold LocalFilePrintjob_get_next, bind at 1, get_self at 1.
  change (fst (j, w)) with j. rewrite Hh. reflexivity.
Qed.

Lemma read_one_cls (line rest : string) (j : job) : cls (read_one line rest j) = cls j.
Proof. reflexivity. Qed.

(** At the end of the text a job that filters its lines ends the run
    twice within one call: once for the empty read, once more for the
    handle the first end has closed. *)
Lemma end_of_text (j : job) (w : world) :
  cls j = LocalGcodeFilePrintjobC -> _handle j = Some "" ->
  exists j1 w1 j2 w2,
    get_next (j, w) = (Done None, (j2, w2)) /\
    wrapped_up on_job_done (read_one "" "" j) w j1 w1 /\
    wrapped_up on_job_done j1 w1 j2 w2.
Proof.
  intros Hc Hh.
  assert (Hl : is_local (cls j) = true) by (rewrite Hc; reflexivity).
  rewrite (get_next_open j w "" Hl Hh).
  unfold try_except. change (rounds_for "") with 2%nat.
  rewrite (get_next_loop_open 1 j w "" Hh).
  change (readline "") with (EmptyString, EmptyString).
  change (fst (EmptyString, EmptyString)) with EmptyString.
  change (snd (EmptyString, EmptyString)) with EmptyString.
  change (len "" =? 0) with true. cbv iota.
  assert (Hc1 : cls (read_one "" "" j) <> LocalGcodeStreamjobC)
    by (rewrite read_one_cls, Hc; discriminate).
  destruct (terminal_handling on_job_done (read_one "" "" j) w) as (j1 & w1 & E1 & W1).
  rewrite <- (process_job_done_plain _ _ Hc1) in E1.
  rewrite (bind_Done _ _ _ _ _ E1).
  unfold bind at 1, get_self at 1. change (fst (j1, w1)) with j1.
  assert (K1 : cls j1 = LocalGcodeFilePrintjobC).
  { destruct W1 as ((K & _) & _). rewrite K, read_one_cls. exact Hc. }
  rewrite K1. change (process_line LocalGcodeFilePrintjobC "") with (@None string).
  cbv iota.
  assert (H1 : _handle j1 = None).
  { destruct W1 as (_ & R & _). unfold was_reset in R.
    rewrite read_one_cls, Hc in R. apply R. }
  rewrite (get_next_loop_closed 0 j1 w1 H1).
  assert (Hc2 : cls j1 <> LocalGcodeStreamjobC) by (rewrite K1; discriminate).
  destruct (terminal_handling on_job_done j1 w1) as (j2 & w2 & E2 & W2).
  rewrite <- (process_job_done_plain _ _ Hc2) in E2.
  rewrite (bind_Done _ _ _ _ _ E2). unfold ret.
  exists j1, w1, j2, w2. auto.
Qed.

(** ** Starting *)

(** [process] on any job, started or not: the start and the protocol are
    written over, and only a missing file makes the call fail. *)
Lemma process_effect (p : protocol) (position : Z) (tags : option (list string))
    (j : job) (w : world) :
  exists r j' w',
    process p position tags (j, w) = (r, (j', w')) /\
    _start j' = Some (clock w (ticks w)) /\
    _protocol j' = Some p /\
    registered p (listeners w') = true /\
    (r = Done tt \/
     (r = Raised IOError /\ is_local (cls j) = true /\ files w (_path j) = None)) /\
    (can_open j w = true -> r = Done tt).
Proof.
  destruct j as [c st pr nm us lt le sto pis pa en sz po rl al cp ha re fi
                 si sti ac lp].
  destruct w as [ck tk fs ls tr].
  assert (R := registered_add p ls).
  assert (R2 := registered_add p (add_listener p ls)).
  unfold process, LocalGcodeStreamjob_process, LocalFilePrintjob_process,
    SDFilePrintjob_process, Printjob_process, process_job_started,
    notify_listeners, bom_aware_open, on_protocol, monotonic, emit, update,
    get_self, bind, ret.
  destruct c; cbn -[add_listener registered app Z.ltb];
    try (destruct (fs pa) eqn:F; cbn -[add_listener registered app Z.ltb]);
    try (destruct (Z.ltb 0 position); cbn -[add_listener registered app Z.ltb]).
  all: eexists; eexists; eexists; (split; [reflexivity|]).
  all: cbn -[add_listener registered app].
  all: (split; [reflexivity|]); (split; [reflexivity|]); (split; [assumption|]).
  all: split; [auto | unfold can_open; cbn; try rewrite F; intros H;
                      try reflexivity; discriminate H].
Qed.

Lemma process_job_done_recording (j : job) (w : world) :
  cls j = LocalGcodeStreamjobC ->
  process_job_done (j, w) =
    (on_protocol stop_recording_file ;;
     notify_listeners on_job_done ;; report_stats ;; reset_job) (j, w).
Proof.
  intros H. unfold process_job_done, bind at 1, get_self at 1.
  change (fst (j, w)) with j. rewrite H. reflexivity.
Qed.

(** [process_job_done] changes neither the protocol of the job nor its
    registration, however it ends. *)
Lemma process_job_done_keeps_protocol (j : job) (w : world) :
  _protocol (fst (after process_job_done (j, w))) = _protocol j /\
  listeners (snd (after process_job_done (j, w))) = listeners w.
Proof.
  unfold after.
  destruct (cls j) eqn:Hc.
  1-4, 6:
    assert (Hn : cls j <> LocalGcodeStreamjobC) by (rewrite Hc; discriminate);
    rewrite (process_job_done_plain j w Hn);
    destruct (terminal_handling on_job_done j w)
      as (j' & w' & E & (_ & K & _) & _ & _ & _ & L & _);
    rewrite E; simpl; auto.
  rewrite (process_job_done_recording j w Hc).
  destruct (_protocol j) as [p|] eqn:Hp.
  - rewrite (bind_Done _ _ _ _ _ (on_protocol_bound stop_recording_file p j w Hp)).
    simpl registry_effect.
    destruct (terminal_handling on_job_done j
                (set_trace (trace w ++ [Call p stop_recording_file]) w))
      as (j' & w' & E & (_ & K & _) & _ & _ & _ & L & _).
    rewrite E. simpl in L |- *. rewrite Hp in K. auto.
  - rewrite (bind_Raised _ _ _ _ _ (on_protocol_unbound stop_recording_file j w Hp)).
    simpl. auto.
Qed.

(** ** [get_next] comes back *)

Lemma readline_length (h : string) :
  (String.length (fst (readline h)) + String.length (snd (readline h)))%nat
    = String.length h.
Proof.
  induction h as [|c h IH]; [reflexivity|].
  simpl. destruct (Ascii.eqb c "010"%char); [reflexivity|].
  destruct (readline h) as [l r]. simpl in *. rewrite IH. reflexivity.
Qed.

(** The end of a run of a local job either raises or closes the handle. *)
Lemma process_job_done_local (j : job) (w : world) :
  is_local (cls j) = true ->
  (exists j' w',
     process_job_done (j, w) = (Done tt, (j', w')) /\
     cls j' = cls j /\ _handle j' = None) \/
  (exists e s', process_job_done (j, w) = (Raised e, s')).
Proof.
  intros Hl.
  assert (reset_closes : forall w0 j' w',
            wrapped_up on_job_done j w0 j' w' ->
            cls j' = cls j /\ _handle j' = None).
  { intros w0 j' w' ((K & _) & R & _). split; [exact K|].
    unfold was_reset in R. destruct (cls j); try discriminate Hl; apply R. }
  destruct (cls j) eqn:Hc; try discriminate Hl.
  1-2:
    left;
    assert (Hn : cls j <> LocalGcodeStreamjobC) by (rewrite Hc; discriminate);
    rewrite (process_job_done_plain j w Hn);
    destruct (terminal_handling on_job_done j w) as (j' & w' & E & W);
    exists j', w'; split; [exact E|];
    exact (reset_closes _ _ _ W).
  rewrite (process_job_done_recording j w Hc).
  destruct (_protocol j) as [p|] eqn:Hp.
  - left.
    rewrite (bind_Done _ _ _ _ _ (on_protocol_bound stop_recording_file p j w Hp)).
    destruct (terminal_handling on_job_done j
                (registry_effect p stop_recording_file
                   (set_trace (trace w ++ [Call p stop_recording_file]) w)))
      as (j' & w' & E & W).
    exists j', w'. split; [exact E|].
    exact (reset_closes _ _ _ W).
  - right. exists AttributeError, (j, w).
    apply bind_Raised, on_protocol_unbound, Hp.
Qed.

Lemma cancel_comes_back (error : bool) (s : state) :
  result (cancel error) s <> Spins.
Proof.
  destruct s as [j w]. unfold result.
  destruct (_protocol j) as [p|] eqn:Hp.
  - destruct (cancel_bound error j w p Hp) as (j' & w' & stats & E & _).
    rewrite E. discriminate.
  - destruct (cancel_unbound_summary (j, w) error Hp) as (R & _).
    unfold result in R. rewrite R. discriminate.
Qed.

Lemma get_next_loop_comes_back (n : nat) :
  forall (j : job) (w : world),
    is_local (cls j) = true -> (rounds_left j <= n)%nat ->
    fst (get_next_loop n (j, w)) <> Spins.
Proof.
  induction n as [|n IH]; intros j w Hl Hn.
  { unfold rounds_left, rounds_for in Hn. destruct (_handle j); lia. }
  unfold rounds_left in Hn.
  destruct (_handle j) as [h|] eqn:Hh; cbv beta iota in Hn.
  - rewrite (get_next_loop_open n j w h Hh).
    assert (Hlen := readline_length h).
    destruct (readline h) as [line rest]. simpl fst in *. simpl snd in *.
    unfold rounds_for in Hn.
    assert (after_read :
      forall j1 w1, cls j1 = cls j -> (rounds_left j1 <= n)%nat ->
        fst ((j0 <- get_self ;;
              match process_line (cls j0) line with
              | None => get_next_loop n
              | Some processed =>
                  update (fun j => set_read_lines (_read_lines j + 1) j) ;;
                  process_job_progress ;;
                  ret (Some processed)
              end) (j1, w1)) <> Spins).
    { intros j1 w1 Hc1 Hr1. unfold bind at 1, get_self at 1.
      change (fst (j1, w1)) with j1.
      destruct (process_line (cls j1) line).
      - discriminate.
      - apply IH; [rewrite Hc1; exact Hl|exact Hr1]. }
    destruct (Z.eqb_spec (len line) 0) as [Hz|Hz].
    + destruct (process_job_done_local (read_one line rest j) w Hl)
        as [(j1 & w1 & E & Hc1 & Hh1)|(e & s' & E)].
      * rewrite (bind_Done _ _ _ _ _ E).
        apply after_read; [exact Hc1|].
        unfold rounds_left. rewrite Hh1.
        clear - Hn. lia.
      * rewrite (bind_Raised _ _ _ _ _ E). discriminate.
    + unfold bind at 1, ret at 1.
      apply after_read; [reflexivity|].
      unfold rounds_left, rounds_for, read_one. simpl _handle.
      cbv beta iota. unfold len in Hz. lia.
  - rewrite (get_next_loop_closed n j w Hh).
    destruct (process_job_done_local j w Hl)
      as [(j1 & w1 & E & _)|(e & s' & E)].
    + rewrite (bind_Done _ _ _ _ _ E). discriminate.
    + rewrite (bind_Raised _ _ _ _ _ E). discriminate.
Qed.

(** X1.  [get_next] returns or raises on every job in every state: the
    rounds it allows its loop are never used up, so the loop of the source
    always ends. *)
Theorem get_next_comes_back (j : job) (w : world) :
  result get_next (j, w) <> Spins.
Proof.
  unfold result.
  destruct (is_local (cls j)) eqn:Hl.
  - destruct (_handle j) as [h|] eqn:Hh.
    + rewrite (get_next_open j w h Hl Hh). unfold try_except.
      assert (L := get_next_loop_comes_back (rounds_for h) j w Hl).
      unfold rounds_left in L. rewrite Hh in L. specialize (L (le_n _)).
      destruct (get_next_loop (rounds_for h) (j, w)) as [[a|e|] s'].
      * discriminate.
      * unfold get_next_handler, bind at 1.
        assert (C := cancel_comes_back true s'). unfold result in C.
        destruct (cancel true s') as [[[]|e'|] s'']; simpl.
        -- discriminate.
        -- discriminate.
        -- contradiction.
      * contradiction.
    + rewrite (get_next_closed j w Hl Hh). discriminate.
  - unfold get_next, bind at 1, get_self at 1.
    change (fst (j, w)) with j. rewrite Hl. discriminate.
Qed.

(** ** The claims *)

(** C1, on the code.  The three-line resource ["G1 X1\n"], ["; comment\n"],
    ["G1 Y1\n"] through the line-filtering job: the first two calls of
    [get_next] return ["G1 X1"] and ["G1 Y1"] and leave [actual_lines = 3]
    and [read_lines = 2]; the next call returns [None], but it notifies
    [on_job_done] twice, not once, counts the empty read ([actual_lines = 4])
    and resets [read_lines]. *)
Theorem three_lines_end_with_two_done :
  result get_next started = Done (Some "G1 X1") /\
  result get_next (after get_next started) = Done (Some "G1 Y1") /\
  actual_lines (fst two_lines_read) = 3 /\
  read_lines (fst two_lines_read) = 2 /\
  notifications (trace (snd two_lines_read))
    = [on_job_started; on_job_progress; on_job_progress] /\
  result get_next two_lines_read = Done None /\
  notifications (trace (snd completed))
    = [on_job_started; on_job_progress; on_job_progress;
       on_job_done; on_job_done] /\
  count_notified on_job_done (trace (snd completed)) = 2%nat /\
  actual_lines (fst completed) = 4 /\
  read_lines (fst completed) = 0.
Proof. vm_compute. repeat split. Qed.

(** C2, on the code.  A line-filtering job whose open handle has reached the
    end of its text ends the run twice in the one call of [get_next] that
    finds it: [None] comes back and [on_job_done] has been notified two
    times. *)
Theorem end_of_content_notifies_done_twice (j : job) (w : world) :
  cls j = LocalGcodeFilePrintjobC -> _handle j = Some "" ->
  result get_next (j, w) = Done None /\
  notifications (trace (snd (after get_next (j, w))))
    = notifications (trace w) ++ [on_job_done; on_job_done] /\
  count_terminal (trace (snd (after get_next (j, w))))
    = (count_terminal (trace w) + 2)%nat.
Proof.
  intros Hc Hh.
  destruct (end_of_text j w Hc Hh) as (j1 & w1 & j2 & w2 & E & W1 & W2).
  unfold result, after. rewrite E. simpl fst. simpl snd.
  assert (N : notifications (trace w2)
              = notifications (trace w) ++ [on_job_done; on_job_done]).
  { rewrite (wrapped_up_notifications _ _ _ _ _ W2),
            (wrapped_up_notifications _ _ _ _ _ W1), <- app_assoc.
    reflexivity. }
  split; [reflexivity|]. split; [exact N|].
  unfold count_terminal. rewrite N, filter_app, length_app. reflexivity.
Qed.

Lemma end_of_content_notifies_done_twice_witness :
  cls (fst two_lines_read) = LocalGcodeFilePrintjobC /\
  _handle (fst two_lines_read) = Some "" /\
  result get_next (fst two_lines_read, snd two_lines_read) = Done None /\
  notifications
    (trace (snd (after get_next (fst two_lines_read, snd two_lines_read))))
    = notifications (trace (snd two_lines_read)) ++ [on_job_done; on_job_done] /\
  count_terminal
    (trace (snd (after get_next (fst two_lines_read, snd two_lines_read))))
    = (count_terminal (trace (snd two_lines_read)) + 2)%nat.
Proof.
  split; [reflexivity|]. split; [reflexivity|].
  apply (end_of_content_notifies_done_twice
           (fst two_lines_read) (snd two_lines_read)); reflexivity.
Defined.

(** C3, against the claim.  After the run of the three lines the handle is
    closed; one more [get_next] raises, notifies nothing and returns
    nothing. *)
Lemma get_next_after_completion_raises :
  is_local (cls (fst completed)) = true /\
  _handle (fst completed) = None /\
  result get_next completed = Raised TypeError /\
  result get_next completed <> Done None /\
  notifications (trace (snd (after get_next completed)))
    = notifications (trace (snd completed)).
Proof.
  vm_compute. repeat split. discriminate.
Qed.

(** C3, amended.  A local-file job whose handle is closed when [get_next]
    is called gets an exception and nothing else: no notification, no
    change of the job. *)
Theorem get_next_on_closed_handle_raises (j : job) (w : world) :
  is_local (cls j) = true -> _handle j = None ->
  (exists e, result get_next (j, w) = Raised e) /\
  after get_next (j, w) = (j, w).
Proof.
  intros Hc Hh. unfold result, after.
  rewrite (get_next_closed j w Hc Hh). simpl.
  split; [exists TypeError|]; reflexivity.
Qed.

Lemma get_next_on_closed_handle_raises_witness :
  is_local (cls gcode_job) = true /\ _handle gcode_job = None /\
  (exists e, result get_next (gcode_job, world0) = Raised e) /\
  after get_next (gcode_job, world0) = (gcode_job, world0).
Proof.
  split; [reflexivity|]. split; [reflexivity|].
  apply (get_next_on_closed_handle_raises gcode_job world0); reflexivity.
Defined.

(** C4, against the claim.  [process] on the started job, with another
    protocol, comes back without an error: the start of 100 is now 110 and
    the protocol is the other one. *)
Lemma process_twice_does_not_fail :
  _start (fst started) = Some 100 /\
  _protocol (fst started) = Some port /\
  active (fst started) = true /\
  result (process other_port 0 None) started = Done tt /\
  _start (fst (after (process other_port 0 None) started)) = Some 110 /\
  _protocol (fst (after (process other_port 0 None) started)) = Some other_port.
Proof. vm_compute. repeat split. Qed.

(** C4, amended.  [process] on a job that is already started does not
    fail (as long as a local job still finds its file): it writes the
    current reading of the clock over [start_time], binds the protocol it
    is given and registers on it. *)
Theorem process_restarts_a_started_job (p : protocol) (position : Z)
    (tags : option (list string)) (j : job) (w : world) (t0 : time) :
  _start j = Some t0 -> can_open j w = true ->
  result (process p position tags) (j, w) = Done tt /\
  _start (fst (after (process p position tags) (j, w)))
    = Some (clock w (ticks w)) /\
  _protocol (fst (after (process p position tags) (j, w))) = Some p /\
  registered p (listeners (snd (after (process p position tags) (j, w)))) = true.
Proof.
  intros _ Ho.
  destruct (process_effect p position tags j w)
    as (r & j' & w' & E & S & P & R & _ & D).
  unfold result, after. rewrite E. simpl. rewrite (D Ho). auto.
Qed.

Lemma process_restarts_a_started_job_witness :
  _start (fst started) = Some 100 /\
  can_open (fst started) (snd started) = true /\
  result (process other_port 0 None) (fst started, snd started) = Done tt /\
  _start (fst (after (process other_port 0 None) (fst started, snd started)))
    = Some (clock (snd started) (ticks (snd started))) /\
  _protocol (fst (after (process other_port 0 None) (fst started, snd started)))
    = Some other_port /\
  registered other_port
    (listeners (snd (after (process other_port 0 None)
                       (fst started, snd started)))) = true.
Proof.
  split; [reflexivity|]. split; [reflexivity|].
  apply (process_restarts_a_started_job other_port 0 None
           (fst started) (snd started) 100); reflexivity.
Defined.

(** C5, on the code.  When the device reports the end of the print, the
    device-resident job is reset by [SDFilePrintjob.reset_job], which does
    not go through [Printjob.reset_job]: the job is no longer active, yet
    [start_time] is still set and [elapsed] still returns a duration. *)
Theorem sd_job_stays_started_after_done (j : job) (w : world) (t0 : time) :
  cls j = SDFilePrintjobC -> _start j = Some t0 ->
  result on_protocol_file_print_done (j, w) = Done tt /\
  _start (fst (after on_protocol_file_print_done (j, w))) = Some t0 /\
  active (fst (after on_protocol_file_print_done (j, w))) = false /\
  exists d, result elapsed (after on_protocol_file_print_done (j, w))
            = Done (Some d).
Proof.
  intros Hc Hs. unfold on_protocol_file_print_done, result, after.
  assert (Hn : cls j <> LocalGcodeStreamjobC) by (rewrite Hc; discriminate).
  rewrite (process_job_done_plain j w Hn).
  destruct (terminal_handling on_job_done j w)
    as (j' & w' & E & (K & _) & R & _).
  rewrite E. simpl fst. simpl snd.
  unfold was_reset in R. rewrite Hc in R. destruct R as (R1 & _ & R2 & _).
  split; [reflexivity|]. split; [rewrite R1; exact Hs|].
  split.
  - unfold active. rewrite K, Hc, R2. apply andb_false_r.
  - exists (clock w' (ticks w') - t0).
    unfold elapsed, bind at 1, get_self at 1.
    change (fst (j', w')) with j'. rewrite R1, Hs. reflexivity.
Qed.

Lemma sd_job_stays_started_after_done_witness :
  cls (fst sd_printing) = SDFilePrintjobC /\
  _start (fst sd_printing) = Some 100 /\
  result on_protocol_file_print_done (fst sd_printing, snd sd_printing)
    = Done tt /\
  _start (fst (after on_protocol_file_print_done
                 (fst sd_printing, snd sd_printing))) = Some 100 /\
  active (fst (after on_protocol_file_print_done
                 (fst sd_printing, snd sd_printing))) = false /\
  exists d, result elapsed (after on_protocol_file_print_done
                              (fst sd_printing, snd sd_printing))
            = Done (Some d).
Proof.
  split; [reflexivity|]. split; [reflexivity|].
  apply (sd_job_stays_started_after_done
           (fst sd_printing) (snd sd_printing) 100); reflexivity.
Defined.

(** C6, against the claim.  The local job that has read its three lines
    to the end is reset and no longer active, and it still holds the
    protocol and is still registered on it. *)
Lemma transport_kept_after_done :
  result full_run (gcode_job, world0) = Done None /\
  active (fst completed) = false /\
  _start (fst completed) = None /\
  _protocol (fst completed) = Some port /\
  registered port (listeners (snd completed)) = true.
Proof. vm_compute. repeat split. Qed.

(** C6, amended.  The protocol is bound by [process] and released by
    [cancel], after the failed or cancelled end of the run: the job then
    holds no protocol and is not registered on it.  The reset of a run that
    is done releases nothing: after [process_job_done] the job holds the
    same protocol and is registered as before. *)
Theorem transport_is_released_by_cancel_alone (j : job) (w : world)
    (p : protocol) (error : bool) :
  _protocol j = Some p ->
  (result (cancel error) (j, w) = Done tt /\
   _protocol (fst (after (cancel error) (j, w))) = None /\
   registered p (listeners (snd (after (cancel error) (j, w)))) = false) /\
  (_protocol (fst (after process_job_done (j, w))) = Some p /\
   registered p (listeners (snd (after process_job_done (j, w))))
     = registered p (listeners w)) /\
  (forall q position tags,
     _protocol (fst (after (process q position tags) (j, w))) = Some q /\
     registered q (listeners (snd (after (process q position tags) (j, w))))
       = true).
Proof.
  intros Hp. split; [|split].
  - destruct (cancel_bound error j w p Hp)
      as (j' & w' & stats & E & P & _ & _ & L & _).
    unfold result, after. rewrite E. simpl.
    rewrite L. auto using registered_remove.
  - destruct (process_job_done_keeps_protocol j w) as (K & L).
    rewrite K, L. auto.
  - intros q position tags.
    destruct (process_effect q position tags j w)
      as (r & j' & w' & E & _ & P & R & _).
    unfold after. rewrite E. simpl. auto.
Qed.

Lemma transport_is_released_by_cancel_alone_witness :
  _protocol (fst started) = Some port /\
  (result (cancel false) (fst started, snd started) = Done tt /\
   _protocol (fst (after (cancel false) (fst started, snd started))) = None /\
   registered port
     (listeners (snd (after (cancel false) (fst started, snd started))))
     = false) /\
  (_protocol (fst (after process_job_done (fst started, snd started)))
     = Some port /\
   registered port
     (listeners (snd (after process_job_done (fst started, snd started))))
     = registered port (listeners (snd started))) /\
  (forall q position tags,
     _protocol (fst (after (process q position tags)
                       (fst started, snd started))) = Some q /\
     registered q
       (listeners (snd (after (process q position tags)
                          (fst started, snd started)))) = true).
Proof.
  split; [reflexivity|].
  apply (transport_is_released_by_cancel_alone
           (fst started) (snd started) port false); reflexivity.
Defined.

(** C7, on the code.  The job that has read the three lines to the end is
    processed again from position 0 on the same file.  Both runs come to
    [read_lines = 2] before the end and 0 after it; [actual_lines], which
    no reset touches, is 3 then 4 in the first run and 7 then 8 in the
    second. *)
Theorem second_run_counts_on :
  result full_run (gcode_job, world0) = Done None /\
  result full_run completed = Done None /\
  files (snd completed) "/a.gcode" = files world0 "/a.gcode" /\
  (read_lines (fst two_lines_read), actual_lines (fst two_lines_read)) = (2, 3) /\
  (read_lines (fst completed), actual_lines (fst completed)) = (0, 4) /\
  (let again := after (process port 0 None ;; get_next ;; get_next) completed in
   (read_lines (fst again), actual_lines (fst again)) = (2, 7)) /\
  (read_lines (fst completed_twice), actual_lines (fst completed_twice)) = (0, 8).
Proof. vm_compute. repeat split. Qed.





(** C10, against the claim.  The recording job that was never processed
    holds no protocol; [cancel] raises on its first step, the call that
    stops the recording, and no listener has been notified. *)
Lemma recording_job_cancel_without_transport :
  cls stream_job = LocalGcodeStreamjobC /\
  _protocol stream_job = None /\
  result (cancel false) (stream_job, world0) = Raised AttributeError /\
  result (cancel true) (stream_job, world0) = Raised AttributeError /\
  trace (snd (after (cancel false) (stream_job, world0))) = [] /\
  trace (snd (after (cancel true) (stream_job, world0))) = [].
Proof. vm_compute. repeat split. Qed.

(** C10, amended.  On a job that holds no protocol and is not a recording
    job, [cancel] first ends the run in full (the failed or cancelled
    notification, the report, the reset) and then raises on the missing
    protocol; the job is left without a protocol, so a second [cancel]
    notifies again and raises again.  On a recording job without a
    protocol [cancel] raises before any notification. *)
Theorem cancel_without_transport (j : job) (w : world) (error again : bool) :
  _protocol j = None ->
  result (cancel error) (j, w) = Raised AttributeError /\
  notifications (trace (snd (after (cancel error) (j, w))))
    = notifications (trace w) ++
      (if is_recording (cls j) then [] else [cancel_callback error]) /\
  (is_recording (cls j) = false ->
   was_reset (marked j) (fst (after (cancel error) (j, w)))) /\
  result (cancel again) (after (cancel error) (j, w)) = Raised AttributeError /\
  notifications
    (trace (snd (after (cancel again) (after (cancel error) (j, w)))))
    = notifications (trace w) ++
      (if is_recording (cls j) then []
       else [cancel_callback error; cancel_callback again]).
Proof.
  intros Hp.
  destruct (cancel_unbound_summary (j, w) error Hp) as (R1 & P1 & C1 & N1 & Z1).
  destruct (cancel_unbound_summary (after (cancel error) (j, w)) again P1)
    as (R2 & _ & _ & N2 & _).
  simpl fst in *. simpl snd in *.
  split; [exact R1|]. split; [exact N1|]. split; [exact Z1|].
  split; [exact R2|].
  rewrite N2, N1, C1, <- app_assoc.
  destruct (is_recording (cls j)); reflexivity.
Qed.

Lemma cancel_without_transport_witness :
  _protocol base_job = None /\
  result (cancel false) (base_job, world0) = Raised AttributeError /\
  notifications (trace (snd (after (cancel false) (base_job, world0))))
    = notifications (trace world0) ++
      (if is_recording (cls base_job) then [] else [cancel_callback false]) /\
  (is_recording (cls base_job) = false ->
   was_reset (marked base_job) (fst (after (cancel false) (base_job, world0)))) /\
  result (cancel true) (after (cancel false) (base_job, world0))
    = Raised AttributeError /\
  notifications
    (trace (snd (after (cancel true) (after (cancel false) (base_job, world0)))))
    = notifications (trace world0) ++
      (if is_recording (cls base_job) then []
       else [cancel_callback false; cancel_callback true]).
Proof.
  split; [reflexivity|].
  apply (cancel_without_transport base_job world0 false true); reflexivity.
Defined.

(** * Further properties *)

(** ** Lines *)




Lemma string_app_assoc (a b c : string) : ((a ++ b) ++ c = a ++ (b ++ c))%string.
Proof. induction a as [|x a IH]; simpl; [reflexivity|]. rewrite IH. reflexivity. Qed.






(** ** One call of [get_next], line by line *)








(** ** The end of the text *)

(** A job that is not a recording job, or is bound to a protocol, ends a
    run that is done without an error. *)
Lemma process_job_done_returns (j : job) (w : world) :
  cls j <> LocalGcodeStreamjobC \/ (exists p, _protocol j = Some p) ->
  exists j' w' w0,
    process_job_done (j, w) = (Done tt, (j', w')) /\
    wrapped_up on_job_done j w0 j' w'.
Proof.
  intros H.
  destruct (cls j) eqn:Hc.
  1-4, 6:
    assert (Hn : cls j <> LocalGcodeStreamjobC) by (rewrite Hc; discriminate);
    rewrite (process_job_done_plain j w Hn);
    destruct (terminal_handling on_job_done j w) as (j' & w' & E & W);
    exists j', w', w; split; [exact E|exact W].
  destruct H as [H|(p & Hp)]; [congruence|].
  rewrite (process_job_done_recording j w Hc).
  rewrite (bind_Done _ _ _ _ _ (on_protocol_bound stop_recording_file p j w Hp)).
  destruct (terminal_handling on_job_done j
              (registry_effect p stop_recording_file
                 (set_trace (trace w ++ [Call p stop_recording_file]) w)))
    as (j' & w' & E & W).
  eexists j', w', _. split; [exact E|exact W].
Qed.





Lemma was_reset_local (j j' : job) :
  is_local (cls j) = true -> was_reset j j' ->
  _start j' = None /\ _handle j' = None /\ _pos j' = 0 /\ _read_lines j' = 0.
Proof.
  unfold was_reset. destruct (cls j); try discriminate; auto.
Qed.




(** X4.  A plain local-file job, whose [process_line] hands every line on
    as it is, does not return [None] at the end of the text: the call that
    reads the empty line ends the run, then counts the empty line as read,
    notifies a progress after the end of the run, and returns the empty
    string. *)
Theorem plain_job_returns_empty_string_at_end (j : job) (w : world) :
  cls j = LocalFilePrintjobC -> _handle j = Some EmptyString ->
  exists j' w',
    get_next (j, w) = (Done (Some EmptyString), (j', w')) /\
    notifications (trace w')
      = notifications (trace w) ++ [on_job_done; on_job_progress] /\
    _handle j' = None /\ _start j' = None /\ active j' = false /\
    _read_lines j' = 1 /\ _actual_lines j' = _actual_lines j + 1.
Proof.
  intros Hc Hh.
  assert (Hl : is_local (cls j) = true) by (rewrite Hc; reflexivity).
  rewrite (get_next_open j w "" Hl Hh).
  unfold try_except. change (rounds_for "") with 2%nat.
  rewrite (get_next_loop_open 1 j w "" Hh).
  change (readline "") with (EmptyString, EmptyString).
  change (fst (EmptyString, EmptyString)) with EmptyString.
  change (snd (EmptyString, EmptyString)) with EmptyString.
  change (len "" =? 0) with true. cbv iota.
  assert (Hc1 : cls (read_one "" "" j) <> LocalGcodeStreamjobC)
    by (rewrite read_one_cls, Hc; discriminate).
  destruct (terminal_handling on_job_done (read_one "" "" j) w)
    as (j1 & w1 & E1 & W1).
  rewrite <- (process_job_done_plain _ _ Hc1) in E1.
  rewrite (bind_Done _ _ _ _ _ E1).
  unfold bind at 1, get_self at 1. change (fst (j1, w1)) with j1.
  assert (N1 := wrapped_up_notifications _ _ _ _ _ W1).
  destruct W1 as ((K1 & _ & _ & _ & K5 & _) & R1 & _).
  rewrite read_one_cls, Hc in K1. rewrite K1.
  unfold was_reset in R1. rewrite read_one_cls, Hc in R1.
  destruct R1 as (S1 & H1 & _ & L1).
  change (process_line LocalFilePrintjobC "") with (Some EmptyString).
  cbv iota.
  unfold bind, update, process_job_progress, notify_listeners, emit, get_self, ret.
  simpl.
  eexists; eexists. split; [reflexivity|]. simpl.
  rewrite notifications_app, N1, <- app_assoc. simpl.
  rewrite H1, S1, L1, K5.
  repeat split. unfold active. simpl. rewrite K1, S1. reflexivity.
Qed.

Lemma plain_job_returns_empty_string_at_end_witness :
  cls (fst plain_at_end) = LocalFilePrintjobC /\
  _handle (fst plain_at_end) = Some EmptyString /\
  exists j' w',
    get_next (fst plain_at_end, snd plain_at_end)
      = (Done (Some EmptyString), (j', w')) /\
    notifications (trace w')
      = notifications (trace (snd plain_at_end))
        ++ [on_job_done; on_job_progress] /\
    _handle j' = None /\ _start j' = None /\ active j' = false /\
    _read_lines j' = 1 /\
    _actual_lines j' = _actual_lines (fst plain_at_end) + 1.
Proof.
  split; [reflexivity|]. split; [reflexivity|].
  apply (plain_job_returns_empty_string_at_end
           (fst plain_at_end) (snd plain_at_end)); reflexivity.
Defined.

(** ** The counters *)

Lemma bind_ret_state {A B} (m : M A) (b : B) (s : state) :
  snd ((m ;; ret b) s) = snd (m s).
Proof. unfold bind, ret. destruct (m s) as [[a|e|] s']; reflexivity. Qed.

Lemma bind_get_self {B} (k : job -> M B) (j : job) (w : world) :
  (x <- get_self ;; k x) (j, w) = k j (j, w).
Proof. reflexivity. Qed.

Lemma wrapped_up_recounted cb j w j' w' :
  is_local (cls j) = true -> wrapped_up cb j w j' w' -> recounted j j'.
Proof.
  intros Hl ((K1 & _ & _ & _ & K5 & _) & R & _).
  destruct (was_reset_local j j' Hl R) as (_ & _ & _ & L).
  repeat split; auto.
Qed.

Lemma process_job_done_recounted (j : job) (w : world) :
  is_local (cls j) = true ->
  recounted j (fst (snd (process_job_done (j, w)))).
Proof.
  intros Hl.
  destruct (_protocol j) as [p|] eqn:Hp.
  - destruct (process_job_done_returns j w (or_intror (ex_intro _ p Hp)))
      as (j' & w' & w0 & E & W).
    rewrite E. exact (wrapped_up_recounted _ _ _ _ _ Hl W).
  - destruct (cls j) eqn:Hc; try discriminate Hl.
    1-2:
      assert (Hn : cls j <> LocalGcodeStreamjobC) by (rewrite Hc; discriminate);
      destruct (process_job_done_returns j w (or_introl Hn))
        as (j' & w' & w0 & E & W);
      rewrite E;
      apply (wrapped_up_recounted _ _ _ _ _ ltac:(rewrite Hc; reflexivity) W).
    rewrite (process_job_done_recording j w Hc).
    rewrite (bind_Raised _ _ _ _ _ (on_protocol_unbound stop_recording_file j w Hp)).
    simpl. unfold recounted. auto.
Qed.

Lemma marked_recounted (j : job) : recounted j (marked j).
Proof.
  unfold recounted, marked. destruct (is_local (cls j)); simpl; auto.
Qed.

Lemma recounted_trans (a b c : job) : recounted a b -> recounted b c -> recounted a c.
Proof.
  intros (A1 & A2 & A3) (B1 & B2 & B3).
  split; [congruence|]. split; [congruence|].
  destruct B3 as [B3|B3]; [|right; exact B3].
  rewrite B3. exact A3.
Qed.

Lemma cancel_recounted (error : bool) (j : job) (w : world) :
  is_local (cls j) = true ->
  recounted j (fst (snd (cancel error (j, w)))).
Proof.
  intros Hl. apply (recounted_trans _ (marked j)); [apply marked_recounted|].
  assert (Hlm : is_local (cls (marked j)) = true) by (rewrite marked_cls; exact Hl).
  rewrite cancel_marks. unfold Printjob_cancel.
  destruct (_protocol j) as [p|] eqn:Hp.
  - assert (Hm : _protocol (marked j) = Some p) by (rewrite marked_protocol; exact Hp).
    destruct (ending_bound error (marked j) w p Hm) as (j1 & w1 & E & W).
    rewrite (bind_Done _ _ _ _ _ E).
    assert (R := wrapped_up_recounted _ _ _ _ _ Hlm W).
    assert (Hp1 : _protocol j1 = Some p).
    { destruct W as ((_ & K2 & _) & _). rewrite K2. exact Hm. }
    rewrite (bind_Done _ _ _ _ _ (on_protocol_bound unregister_listener p j1 w1 Hp1)).
    unfold update. simpl. exact R.
  - destruct (is_recording (cls j)) eqn:Hr.
    + assert (Hc : cls j = LocalGcodeStreamjobC)
        by (destruct (cls j); try discriminate Hr; reflexivity).
      assert (E := cancel_unbound_recording error j w Hc Hp).
      rewrite cancel_marks in E. unfold Printjob_cancel in E. rewrite E.
      simpl. unfold recounted. auto.
    + assert (Hc : cls j <> LocalGcodeStreamjobC)
        by (intros Hc; rewrite Hc in Hr; discriminate Hr).
      destruct (cancel_unbound error j w Hc Hp) as (j' & w' & E & W).
      rewrite cancel_marks in E. unfold Printjob_cancel in E. rewrite E.
      simpl. exact (wrapped_up_recounted _ _ _ _ _ Hlm W).
Qed.

Lemma process_recounted (p : protocol) (position : Z)
    (tags : option (list string)) (j : job) (w : world) :
  recounted j (fst (snd (process p position tags (j, w)))).
Proof.
  destruct j as [c st pr nm us lt le sto pis pa en sz po rl al cp ha re fi
                 si sti ac lp].
  destruct w as [ck tk fs ls tr].
  unfold process, LocalGcodeStreamjob_process, LocalFilePrintjob_process,
    SDFilePrintjob_process, Printjob_process, process_job_started,
    notify_listeners, bom_aware_open, on_protocol, monotonic, emit, update,
    get_self, bind, ret, recounted.
  destruct c; cbn -[add_listener registered app Z.ltb];
    try (destruct (fs pa) eqn:F; cbn -[add_listener registered app Z.ltb]);
    try (destruct (Z.ltb 0 position); cbn -[add_listener registered app Z.ltb]);
    auto.
Qed.

Lemma bind_state_cases {A B} (m : M A) (k : A -> M B) (s : state)
    (P : state -> Prop) :
  (forall a s1, m s = (Done a, s1) -> P (snd (k a s1))) ->
  (forall e s1, m s = (Raised e, s1) -> P s1) ->
  (forall s1, m s = (Spins, s1) -> P s1) ->
  P (snd ((x <- m ;; k x) s)).
Proof.
  intros HD HR HS. unfold bind.
  destruct (m s) as [[a|e|] s1]; simpl; eauto.
Qed.

Lemma recounted_in_order (j j' : job) :
  is_local (cls j) = true -> 0 <= _read_lines j ->
  _read_lines j + 1 <= _actual_lines j -> recounted j j' ->
  is_local (cls j') = true /\ 0 <= _read_lines j' /\
  _read_lines j' + 1 <= _actual_lines j'.
Proof.
  intros Hl A0 A1 (R1 & R2 & R3). rewrite R1, R2.
  destruct R3 as [R3|R3]; rewrite R3; repeat split; auto; lia.
Qed.

(** The counters through the loop: after a read, [read_lines] is below
    [actual_lines], and stays so. *)
Lemma get_next_loop_counted (n : nat) :
  forall (j : job) (w : world),
    is_local (cls j) = true -> counted j ->
    in_order (snd (get_next_loop n (j, w))).
Proof.
  induction n as [|n IH]; intros j w Hl (C0 & C1).
  { simpl. split; [exact Hl|split; assumption]. }
  destruct (_handle j) as [h|] eqn:Hh.
  - rewrite (get_next_loop_open n j w h Hh).
    set (line := fst (readline h)). set (rest := snd (readline h)).
    assert (after_read :
      forall j2 w2,
        is_local (cls j2) = true -> 0 <= _read_lines j2 ->
        _read_lines j2 + 1 <= _actual_lines j2 ->
        in_order
          (snd ((j0 <- get_self ;;
                 match process_line (cls j0) line with
                 | None => get_next_loop n
                 | Some processed =>
                     update (fun j => set_read_lines (_read_lines j + 1) j) ;;
                     process_job_progress ;;
                     ret (Some processed)
                 end) (j2, w2)))).
    { intros j2 w2 Hl2 A0 A1. rewrite bind_get_self.
      destruct (process_line (cls j2) line).
      - simpl. split; [exact Hl2|]. unfold counted. simpl. lia.
      - apply IH; [exact Hl2|]. unfold counted. lia. }
    assert (B0 : 0 <= _read_lines (read_one line rest j)) by exact C0.
    assert (B1 : _read_lines (read_one line rest j) + 1
                 <= _actual_lines (read_one line rest j)) by (simpl; lia).
    destruct (Z.eqb (len line) 0).
    + assert (R := process_job_done_recounted (read_one line rest j) w Hl).
      apply bind_state_cases.
      * intros [] [j2 w2] E. rewrite E in R. simpl in R.
        destruct (recounted_in_order (read_one line rest j) j2 Hl B0 B1 R) as (D1 & D2 & D3).
        apply after_read; assumption.
      * intros e [j2 w2] E. rewrite E in R. simpl in R.
        destruct (recounted_in_order (read_one line rest j) j2 Hl B0 B1 R) as (D1 & D2 & D3).
        split; [exact D1|]. unfold counted. simpl. lia.
      * intros [j2 w2] E. rewrite E in R. simpl in R.
        destruct (recounted_in_order (read_one line rest j) j2 Hl B0 B1 R) as (D1 & D2 & D3).
        split; [exact D1|]. unfold counted. simpl. lia.
    + apply bind_state_cases.
      * intros [] s1 E. injection E as <-. apply after_read; assumption.
      * intros e s1 E. discriminate E.
      * intros s1 E. discriminate E.
  - rewrite (get_next_loop_closed n j w Hh), bind_ret_state.
    destruct (process_job_done_recounted j w Hl) as (R1 & R2 & R3).
    split; [rewrite R1; exact Hl|]. unfold counted. rewrite R2.
    destruct R3 as [R3|R3]; rewrite R3; lia.
Qed.

(** X5.  For every local-file job, [0 <= read_lines <= actual_lines] is
    kept by [process], by [get_next] and by [cancel], whether the call
    returns or raises. *)
Theorem counters_stay_in_order (j : job) (w : world) :
  is_local (cls j) = true -> counted j ->
  counted (fst (after get_next (j, w))) /\
  (forall error, counted (fst (after (cancel error) (j, w)))) /\
  (forall p position tags, counted (fst (after (process p position tags) (j, w)))).
Proof.
  intros Hl C.
  assert (from_recounted : forall j', recounted j j' -> counted j').
  { intros j' (_ & R2 & R3). destruct C as (C0 & C1). unfold counted.
    rewrite R2. destruct R3 as [R3|R3]; rewrite R3; lia. }
  split; [|split].
  - unfold after. destruct (_handle j) as [h|] eqn:Hh.
    + rewrite (get_next_open j w h Hl Hh). unfold try_except.
      destruct (get_next_loop_counted (rounds_for h) j w Hl C) as (L1 & L2).
      unfold in_order in *.
      destruct (get_next_loop (rounds_for h) (j, w)) as [[a|e|] [j1 w1]];
        simpl in L1, L2; try exact L2.
      unfold get_next_handler, bind at 1.
      assert (R := cancel_recounted true j1 w1 L1).
      destruct (cancel true (j1, w1)) as [[[]|e'|] [j2 w2]]; simpl in R |- *;
        destruct R as (_ & R2 & R3); destruct L2 as (C0 & C1); unfold counted;
        rewrite R2; destruct R3 as [R3|R3]; rewrite R3; lia.
    + rewrite (get_next_closed j w Hl Hh). exact C.
  - intros error. apply from_recounted, cancel_recounted, Hl.
  - intros p position tags. apply from_recounted, process_recounted.
Qed.

Lemma counters_stay_in_order_witness :
  is_local (cls (fst one_line_read)) = true /\
  counted (fst one_line_read) /\
  counted (fst (after get_next (fst one_line_read, snd one_line_read))) /\
  (forall error,
     counted (fst (after (cancel error) (fst one_line_read, snd one_line_read)))) /\
  (forall p position tags,
     counted (fst (after (process p position tags)
                     (fst one_line_read, snd one_line_read)))).
Proof.
  split; [reflexivity|].
  split; [unfold counted; simpl; lia|].
  apply (counters_stay_in_order (fst one_line_read) (snd one_line_read));
    [reflexivity|unfold counted; simpl; lia].
Defined.

(** ** The endings of a run *)

Lemma run_ending_plain (e : ending) (j : job) (w : world) :
  cls j <> LocalGcodeStreamjobC ->
  run_ending e (j, w) = wrap_up (ending_callback e) (j, w).
Proof.
  intros H. destruct e; simpl.
  - apply process_job_done_plain, H.
  - apply process_job_failed_plain, H.
  - apply process_job_cancelled_plain, H.
Qed.

Lemma run_ending_recording (e : ending) (j : job) (w : world) (p : protocol) :
  cls j = LocalGcodeStreamjobC -> _protocol j = Some p ->
  run_ending e (j, w) =
    wrap_up (ending_callback e) (j, set_trace (trace w ++ recording_calls e j p) w).
Proof.
  intros Hc Hp.
  destruct e; simpl run_ending.
  - rewrite (process_job_done_recording j w Hc).
    rewrite (bind_Done _ _ _ _ _ (on_protocol_bound stop_recording_file p j w Hp)).
    reflexivity.
  - unfold process_job_failed. rewrite bind_get_self, Hc.
    unfold LocalGcodeStreamjob_process_job_failed.
    rewrite (bind_Done _ _ _ _ _ (on_protocol_bound stop_recording_file p j w Hp)).
    reflexivity.
  - unfold process_job_cancelled. rewrite bind_get_self, Hc.
    unfold LocalGcodeStreamjob_process_job_cancelled.
    rewrite (bind_Done _ _ _ _ _ (on_protocol_bound stop_recording_file p j w Hp)).
    rewrite bind_get_self.
    rewrite (bind_Done _ _ _ _ _
               (on_protocol_bound (delete_file (_remote j)) p j _ Hp)).
    simpl registry_effect. unfold wrap_up, Printjob_process_job_cancelled.
    destruct w as [ck tk fs ls tr]. unfold set_trace. simpl.
    rewrite <- app_assoc. reflexivity.
Qed.

Lemma run_ending_unbound (e : ending) (j : job) (w : world) :
  cls j = LocalGcodeStreamjobC -> _protocol j = None ->
  run_ending e (j, w) = (Raised AttributeError, (j, w)).
Proof.
  intros Hc Hp.
  destruct e; simpl run_ending.
  - rewrite (process_job_done_recording j w Hc).
    apply bind_Raised, on_protocol_unbound, Hp.
  - unfold process_job_failed. rewrite bind_get_self, Hc.
    apply bind_Raised, on_protocol_unbound, Hp.
  - unfold process_job_cancelled. rewrite bind_get_self, Hc.
    apply bind_Raised, on_protocol_unbound, Hp.
Qed.

(** An ending that can run comes down to the shared steps, in a world that
    differs from the one it started in by the calls of a recording job. *)
Lemma run_ending_returns (e : ending) (j : job) (w : world) :
  can_end j ->
  exists w0,
    run_ending e (j, w) = wrap_up (ending_callback e) (j, w0) /\
    clock w0 = clock w /\ ticks w0 = ticks w /\ files w0 = files w /\
    listeners w0 = listeners w /\
    notifications (trace w0) = notifications (trace w).
Proof.
  intros H.
  destruct (cls j) eqn:Hc.
  1-4, 6:
    exists w; split;
      [apply run_ending_plain; rewrite Hc; discriminate|repeat split].
  destruct H as [H|(p & Hp)]; [congruence|].
  exists (set_trace (trace w ++ recording_calls e j p) w).
  split; [exact (run_ending_recording e j w p Hc Hp)|].
  simpl. repeat split.
  rewrite notifications_app. destruct e; simpl; apply app_nil_r.
Qed.

(** Either an ending can run, or it raises at once. *)
Lemma can_end_or_not (j : job) :
  can_end j \/ (cls j = LocalGcodeStreamjobC /\ _protocol j = None).
Proof.
  unfold can_end.
  destruct (cls j) eqn:Hc; try (left; left; discriminate).
  destruct (_protocol j) as [p|]; [left; right; exists p; reflexivity|right; auto].
Qed.

Lemma reset_makes_inactive (j j' : job) :
  kept j j' -> was_reset j j' -> active j' = false.
Proof.
  intros (K & _) R. unfold active, was_reset in *. rewrite K.
  destruct (cls j).
  - rewrite R. reflexivity.
  - rewrite R. reflexivity.
  - destruct R as (R & _). rewrite R. reflexivity.
  - destruct R as (R & _). rewrite R. reflexivity.
  - destruct R as (R & _). rewrite R. reflexivity.
  - destruct R as (_ & _ & R & _). rewrite R. apply andb_false_r.
Qed.

(** X7.  Each of the three endings of a run, when it returns, has notified
    its own callback once and leaves the job not active, for every class
    of job. *)
Theorem endings_leave_the_job_inactive (e : ending) (j : job) (w : world) :
  result (run_ending e) (j, w) = Done tt ->
  active (fst (after (run_ending e) (j, w))) = false /\
  notifications (trace (snd (after (run_ending e) (j, w))))
    = notifications (trace w) ++ [ending_callback e].
Proof.
  unfold result, after. intros H.
  destruct (can_end_or_not j) as [C|(Hc & Hp)].
  - destruct (run_ending_returns e j w C) as (w0 & E & _ & _ & _ & _ & N).
    rewrite E. unfold wrap_up.
    destruct (terminal_handling (ending_callback e) j w0) as (j' & w' & E' & W).
    rewrite E'. simpl.
    rewrite (wrapped_up_notifications _ _ _ _ _ W), N.
    destruct W as (K & R & _).
    split; [exact (reset_makes_inactive j j' K R)|reflexivity].
  - rewrite (run_ending_unbound e j w Hc Hp) in H. discriminate H.
Qed.

Lemma endings_leave_the_job_inactive_witness :
  result (run_ending Failed) (fst sd_printing, snd sd_printing) = Done tt /\
  active (fst sd_printing) = true /\
  active (fst (after (run_ending Failed) (fst sd_printing, snd sd_printing)))
    = false /\
  notifications
    (trace (snd (after (run_ending Failed) (fst sd_printing, snd sd_printing))))
    = notifications (trace (snd sd_printing)) ++ [ending_callback Failed].
Proof.
  split; [reflexivity|]. split; [reflexivity|].
  apply (endings_leave_the_job_inactive Failed
           (fst sd_printing) (snd sd_printing)); reflexivity.
Defined.

(** X8.  Resetting twice is resetting once: the second [reset_job] finds
    nothing to do, reads no clock and closes no handle. *)
Theorem reset_job_is_idempotent (j : job) (w : world) :
  (reset_job ;; reset_job) (j, w) = reset_job (j, w) /\
  result reset_job (j, w) = Done tt.
Proof.
  destruct j as [c st pr nm us lt le sto pis pa en sz po rl al cp ha re fi
                 si sti ac lp].
  destruct w as [ck tk fs ls tr].
  destruct c, st as [t0|], ha as [h|]; split; reflexivity.
Qed.

(** The timing the shared steps leave: the report and the reset each read
    the clock when the job was started. *)
Lemma wrap_up_timing (cb : callback) (j : job) (w : world) (j' : job) (w' : world) :
  wrap_up cb (j, w) = (Done tt, (j', w')) ->
  _lost_time j' = _lost_time j /\
  (cls j <> SDFilePrintjobC ->
   _size j' = _size j /\
   _last_elapsed j'
     = match _start j with
       | Some t0 => Some (clock w (S (ticks w)) - t0)
       | None => _last_elapsed j
       end).
Proof.
  destruct j as [c st pr nm us lt le sto pis pa en sz po rl al cp ha re fi
                 si sti ac lp].
  destruct w as [ck tk fs ls tr].
  unfold wrap_up. unfold_wrap_up.
  destruct c, st as [t0|], ha as [h|]; cbn -[app];
    try destruct (Z.eqb (ck tk - t0) 0); cbn -[app];
    try destruct (Z.eqb rl 0); cbn -[app].
  all: intros E; injection E as <- <-; cbn.
  all: split; [reflexivity|intros H; try (exfalso; apply H; reflexivity); auto].
Qed.

Lemma elapsed_idle (j : job) (w : world) :
  _start j = None -> elapsed (j, w) = (Done None, (j, w)).
Proof. intros H. unfold elapsed. rewrite bind_get_self, H. reflexivity. Qed.

(** X11.  After any ending of a run of a job that was started and is not
    device-resident, [elapsed] returns [None] and [last_elapsed] returns
    the duration the reset has kept: the reading of the clock at the
    reset, which is the second reading of the ending, less the start. *)
Theorem last_elapsed_outlives_the_run (e : ending) (j : job) (w : world)
    (t0 : time) :
  cls j <> SDFilePrintjobC -> _start j = Some t0 -> can_end j ->
  result (run_ending e) (j, w) = Done tt /\
  result elapsed (after (run_ending e) (j, w)) = Done None /\
  result last_elapsed (after (run_ending e) (j, w))
    = Done (Some (clock w (S (ticks w)) - t0)).
Proof.
  intros Hc Hs C. unfold result, after.
  destruct (run_ending_returns e j w C) as (w0 & E & Ck & Tk & _).
  rewrite E.
  destruct (terminal_handling (ending_callback e) j w0) as (j' & w' & E' & W).
  fold (wrap_up (ending_callback e)) in E'. rewrite E'. simpl fst. simpl snd.
  destruct (wrap_up_timing _ _ _ _ _ E') as (_ & T).
  destruct (T Hc) as (_ & L). rewrite Hs, Ck, Tk in L.
  assert (S' : _start j' = None).
  { destruct W as (_ & R & _). unfold was_reset in R.
    destruct (cls j); try (destruct R as (R & _)); try exact R.
    exfalso. apply Hc. reflexivity. }
  split; [reflexivity|].
  split; [rewrite (elapsed_idle j' w' S'); reflexivity|].
  unfold last_elapsed.
  rewrite (bind_Done _ _ _ _ _ (elapsed_idle j' w' S')), bind_get_self.
  unfold ret. simpl. rewrite L. reflexivity.
Qed.

Lemma last_elapsed_outlives_the_run_witness :
  cls (fst one_line_read) <> SDFilePrintjobC /\
  _start (fst one_line_read) = Some 100 /\
  can_end (fst one_line_read) /\
  result (run_ending Cancelled) (fst one_line_read, snd one_line_read) = Done tt /\
  result elapsed
    (after (run_ending Cancelled) (fst one_line_read, snd one_line_read))
    = Done None /\
  result last_elapsed
    (after (run_ending Cancelled) (fst one_line_read, snd one_line_read))
    = Done (Some (clock (snd one_line_read) (S (ticks (snd one_line_read))) - 100)).
Proof.
  split; [discriminate|]. split; [reflexivity|].
  split; [left; discriminate|].
  apply (last_elapsed_outlives_the_run Cancelled
           (fst one_line_read) (snd one_line_read) 100);
    [discriminate|reflexivity|left; discriminate].
Defined.

(** ** [cancel] on a bound protocol *)

Lemma notifications_recording_stop (error : bool) (j : job) (p : protocol) :
  notifications (recording_stop error j p) = [].
Proof. unfold recording_stop. destruct (cls j), error; reflexivity. Qed.

(** [cancel] on a bound protocol, with what it keeps of the job. *)
Lemma cancel_bound_fields (error : bool) (j : job) (w : world) (p : protocol) :
  _protocol j = Some p ->
  exists j' w',
    cancel error (j, w) = (Done tt, (j', w')) /\
    active j' = false /\ _protocol j' = None /\
    _cancel_pos j' = _cancel_pos (marked j) /\
    was_reset (marked j) j' /\
    (cls j <> SDFilePrintjobC -> _size j' = _size j) /\
    notifications (trace w') = notifications (trace w) ++ [cancel_callback error] /\
    listeners w' = remove_listener p (listeners w).
Proof.
  intros Hp. rewrite cancel_marks. unfold Printjob_cancel.
  assert (Hm : _protocol (marked j) = Some p) by (rewrite marked_protocol; exact Hp).
  assert (C : can_end (marked j)) by (right; exists p; exact Hm).
  assert (E : (if error then process_job_failed else process_job_cancelled)
              = run_ending (if error then Failed else Cancelled))
    by (destruct error; reflexivity).
  assert (Ecb : cancel_callback error
                = ending_callback (if error then Failed else Cancelled))
    by (destruct error; reflexivity).
  rewrite E.
  destruct (run_ending_returns (if error then Failed else Cancelled) (marked j) w C)
    as (w0 & E0 & _ & _ & _ & L0 & N0).
  destruct (terminal_handling (ending_callback (if error then Failed else Cancelled))
              (marked j) w0) as (j1 & w1 & E1 & W).
  fold (wrap_up (ending_callback (if error then Failed else Cancelled))) in E1.
  rewrite <- E0 in E1. rewrite (bind_Done _ _ _ _ _ E1).
  rewrite E0 in E1.
  destruct (wrap_up_timing _ _ _ _ _ E1) as (_ & T).
  assert (N := wrapped_up_notifications _ _ _ _ _ W).
  destruct W as (K & R & _ & _ & L & _).
  assert (A := reset_makes_inactive _ _ K R).
  destruct K as (K1 & K2 & _ & _ & _ & K6).
  assert (Hp1 : _protocol j1 = Some p) by (rewrite K2; exact Hm).
  rewrite (bind_Done _ _ _ _ _ (on_protocol_bound unregister_listener p j1 w1 Hp1)).
  unfold update. simpl.
  eexists; eexists. split; [reflexivity|]. simpl.
  split.
  { unfold active in *. simpl. exact A. }
  split; [reflexivity|]. split; [exact K6|].
  split.
  { destruct j1; unfold was_reset in *; simpl in *.
    destruct (cls (marked j)); exact R. }
  split.
  { intros Hc. rewrite marked_cls in T. destruct (T Hc) as (T1 & _).
    rewrite T1. unfold marked. destruct (is_local (cls j)); reflexivity. }
  split.
  { rewrite notifications_app, N, N0, Ecb. simpl. apply app_nil_r. }
  rewrite L, L0. reflexivity.
Qed.

(** X14.  [cancel] on a job that is bound to a protocol returns, for every
    class of job and in every state: exactly one terminal callback has been
    notified, [on_job_failed] for an error and [on_job_cancelled]
    otherwise, and the job is left not active, without a protocol and
    unregistered. *)
Theorem cancel_ends_the_run_once (error : bool) (j : job) (w : world)
    (p : protocol) :
  _protocol j = Some p ->
  result (cancel error) (j, w) = Done tt /\
  notifications (trace (snd (after (cancel error) (j, w))))
    = notifications (trace w) ++ [if error then on_job_failed else on_job_cancelled] /\
  count_terminal (trace (snd (after (cancel error) (j, w))))
    = S (count_terminal (trace w)) /\
  active (fst (after (cancel error) (j, w))) = false /\
  registered p (listeners (snd (after (cancel error) (j, w)))) = false.
Proof.
  intros Hp.
  destruct (cancel_bound_fields error j w p Hp)
    as (j' & w' & E & A & _ & _ & _ & _ & N & L).
  unfold result, after. rewrite E. simpl.
  split; [reflexivity|]. split; [exact N|].
  split.
  { unfold count_terminal. rewrite N, filter_app, length_app.
    destruct error; simpl; lia. }
  split; [exact A|]. rewrite L. apply registered_remove.
Qed.

Lemma cancel_ends_the_run_once_witness :
  _protocol (fst sd_printing) = Some port /\
  result (cancel true) (fst sd_printing, snd sd_printing) = Done tt /\
  notifications (trace (snd (after (cancel true) (fst sd_printing, snd sd_printing))))
    = notifications (trace (snd sd_printing))
      ++ [if true then on_job_failed else on_job_cancelled] /\
  count_terminal
    (trace (snd (after (cancel true) (fst sd_printing, snd sd_printing))))
    = S (count_terminal (trace (snd sd_printing))) /\
  active (fst (after (cancel true) (fst sd_printing, snd sd_printing))) = false /\
  registered port
    (listeners (snd (after (cancel true) (fst sd_printing, snd sd_printing))))
    = false.
Proof.
  split; [reflexivity|].
  apply (cancel_ends_the_run_once true (fst sd_printing) (snd sd_printing) port);
    reflexivity.
Defined.

(** X9.  [cancel] on a local-file job keeps the position of the moment:
    [cancel_pos] is the [pos] the job had when [cancel] was called, while
    [pos] itself and [read_lines] are reset to 0 and the handle is closed;
    [size] is as before. *)
Theorem cancel_keeps_the_position (error : bool) (j : job) (w : world)
    (p : protocol) :
  is_local (cls j) = true -> _protocol j = Some p ->
  result (cancel error) (j, w) = Done tt /\
  cancel_pos (fst (after (cancel error) (j, w))) = Some (_pos j) /\
  pos (fst (after (cancel error) (j, w))) = Some 0 /\
  read_lines (fst (after (cancel error) (j, w))) = 0 /\
  _handle (fst (after (cancel error) (j, w))) = None /\
  size (fst (after (cancel error) (j, w))) = size j.
Proof.
  intros Hl Hp.
  destruct (cancel_bound_fields error j w p Hp)
    as (j' & w' & E & _ & _ & Cp & R & Sz & _).
  unfold result, after. rewrite E. simpl.
  assert (Hlm : is_local (cls (marked j)) = true) by (rewrite marked_cls; exact Hl).
  destruct (was_reset_local _ _ Hlm R) as (_ & H' & P & L).
  assert (Hc : cls j' = cls j).
  { destruct (cancel_bound error j w p Hp) as (j2 & w2 & stats & E2 & _ & C2 & _).
    rewrite E in E2. injection E2 as <- <-. exact C2. }
  assert (Hsd : cls j <> SDFilePrintjobC)
    by (intros Hsd; rewrite Hsd in Hl; discriminate Hl).
  split; [reflexivity|].
  split.
  { unfold cancel_pos. rewrite Cp. unfold marked. rewrite Hl. simpl.
    unfold pos. destruct (cls j); try discriminate Hl; reflexivity. }
  split.
  { unfold pos. rewrite Hc, P. destruct (cls j); try discriminate Hl; reflexivity. }
  split; [exact L|]. split; [exact H'|].
  unfold size. rewrite Hc, (Sz Hsd). reflexivity.
Qed.

Lemma cancel_keeps_the_position_witness :
  is_local (cls (fst one_line_read)) = true /\
  _protocol (fst one_line_read) = Some port /\
  _pos (fst one_line_read) = 6 /\
  result (cancel false) (fst one_line_read, snd one_line_read) = Done tt /\
  cancel_pos (fst (after (cancel false) (fst one_line_read, snd one_line_read)))
    = Some (_pos (fst one_line_read)) /\
  pos (fst (after (cancel false) (fst one_line_read, snd one_line_read)))
    = Some 0 /\
  read_lines (fst (after (cancel false) (fst one_line_read, snd one_line_read)))
    = 0 /\
  _handle (fst (after (cancel false) (fst one_line_read, snd one_line_read)))
    = None /\
  size (fst (after (cancel false) (fst one_line_read, snd one_line_read)))
    = size (fst one_line_read).
Proof.
  split; [reflexivity|]. split; [reflexivity|]. split; [reflexivity|].
  apply (cancel_keeps_the_position false
           (fst one_line_read) (snd one_line_read) port); reflexivity.
Defined.

(** X6.  When the protocol reports that the connection is gone, with or
    without an error, a job that is active and bound to the protocol is
    cancelled as failed: [on_job_failed] is the one callback notified, and
    the job is left not active, without a protocol and unregistered. *)
Theorem disconnect_fails_an_active_job (old_state new_state : ProtocolState)
    (j : job) (w : world) (p : protocol) :
  new_state = DISCONNECTED \/ new_state = DISCONNECTED_WITH_ERROR ->
  active j = true -> _protocol j = Some p ->
  result (on_protocol_state old_state new_state) (j, w) = Done tt /\
  notifications (trace (snd (after (on_protocol_state old_state new_state) (j, w))))
    = notifications (trace w) ++ [on_job_failed] /\
  active (fst (after (on_protocol_state old_state new_state) (j, w))) = false /\
  _protocol (fst (after (on_protocol_state old_state new_state) (j, w))) = None /\
  registered p
    (listeners (snd (after (on_protocol_state old_state new_state) (j, w))))
    = false.
Proof.
  intros Hn Ha Hp.
  assert (E : on_protocol_state old_state new_state (j, w) = cancel true (j, w)).
  { unfold on_protocol_state. rewrite bind_get_self, Ha.
    destruct Hn as [-> | ->]; reflexivity. }
  destruct (cancel_bound_fields true j w p Hp)
    as (j' & w' & E' & A & P & _ & _ & _ & N & L).
  unfold result, after. rewrite E, E'. simpl.
  split; [reflexivity|]. split; [exact N|]. split; [exact A|].
  split; [exact P|]. rewrite L. apply registered_remove.
Qed.

Lemma disconnect_fails_an_active_job_witness :
  (DISCONNECTED_WITH_ERROR = DISCONNECTED
   \/ DISCONNECTED_WITH_ERROR = DISCONNECTED_WITH_ERROR) /\
  active (fst one_line_read) = true /\
  _protocol (fst one_line_read) = Some port /\
  result (on_protocol_state (OTHER_STATE 0) DISCONNECTED_WITH_ERROR)
    (fst one_line_read, snd one_line_read) = Done tt /\
  notifications
    (trace (snd (after (on_protocol_state (OTHER_STATE 0) DISCONNECTED_WITH_ERROR)
                   (fst one_line_read, snd one_line_read))))
    = notifications (trace (snd one_line_read)) ++ [on_job_failed] /\
  active (fst (after (on_protocol_state (OTHER_STATE 0) DISCONNECTED_WITH_ERROR)
                 (fst one_line_read, snd one_line_read))) = false /\
  _protocol (fst (after (on_protocol_state (OTHER_STATE 0) DISCONNECTED_WITH_ERROR)
                    (fst one_line_read, snd one_line_read))) = None /\
  registered port
    (listeners (snd (after (on_protocol_state (OTHER_STATE 0) DISCONNECTED_WITH_ERROR)
                       (fst one_line_read, snd one_line_read))))
    = false.
Proof.
  split; [right; reflexivity|]. split; [reflexivity|]. split; [reflexivity|].
  apply (disconnect_fails_an_active_job (OTHER_STATE 0) DISCONNECTED_WITH_ERROR
           (fst one_line_read) (snd one_line_read) port);
    [right; reflexivity|reflexivity|reflexivity].
Defined.

(** ** Starting at a position *)


Lemma seek_zero (text : string) : seek 0 text = text.
Proof. reflexivity. Qed.



(** ** Building a recording job from a job *)

(** X12.  [from_job] on a line-filtering job whose file is there builds a
    recording job for the given remote path with the path, the storage,
    the name, the user and the encoding of the source; the new job is idle
    whatever the state of the source: no start, no protocol, no handle,
    counters at 0.  On a job of another class, or when the file is gone,
    [from_job] raises [ValueError]. *)
Theorem from_job_mirrors_the_source (j : job) (remote' : string) (w : world) :
  (forall text,
     cls j = LocalGcodeFilePrintjobC \/ cls j = LocalGcodeStreamjobC ->
     files w (_path j) = Some text ->
     exists j',
       from_job j remote' w = Done j' /\
       cls j' = LocalGcodeStreamjobC /\ remote j' = remote' /\
       path j' = path j /\ storage j' = storage j /\
       path_in_storage j' = path_in_storage j /\
       name j' = name j /\ user j' = user j /\ _encoding j' = _encoding j /\
       size j' = Some (len text) /\
       active j' = false /\ _start j' = None /\ _protocol j' = None /\
       _handle j' = None /\ pos j' = Some 0 /\
       read_lines j' = 0 /\ actual_lines j' = 0 /\ cancel_pos j' = None) /\
  (cls j <> LocalGcodeFilePrintjobC -> cls j <> LocalGcodeStreamjobC ->
   from_job j remote' w = Raised ValueError) /\
  (files w (_path j) = None -> from_job j remote' w = Raised ValueError).
Proof.
  split; [|split].
  - intros text Hc Hf. unfold from_job, LocalGcodeStreamjob_init, LocalFilePrintjob_init.
    destruct Hc as [Hc|Hc]; rewrite Hc, Hf; eexists; split; try reflexivity;
      cbn; repeat split.
  - intros H1 H2. unfold from_job. destruct (cls j); try reflexivity; contradiction.
  - intros Hf. unfold from_job, LocalGcodeStreamjob_init, LocalFilePrintjob_init.
    rewrite Hf. destruct (cls j); reflexivity.
Qed.

Lemma from_job_mirrors_the_source_witness :
  (cls (fst one_line_read) = LocalGcodeFilePrintjobC
   \/ cls (fst one_line_read) = LocalGcodeStreamjobC) /\
  files world0 (_path (fst one_line_read)) = Some three_lines /\
  active (fst one_line_read) = true /\
  exists j',
    from_job (fst one_line_read) "a.gco" world0 = Done j' /\
    cls j' = LocalGcodeStreamjobC /\ remote j' = "a.gco" /\
    path j' = path (fst one_line_read) /\
    storage j' = storage (fst one_line_read) /\
    path_in_storage j' = path_in_storage (fst one_line_read) /\
    name j' = name (fst one_line_read) /\ user j' = user (fst one_line_read) /\
    _encoding j' = _encoding (fst one_line_read) /\
    size j' = Some (len three_lines) /\
    active j' = false /\ _start j' = None /\ _protocol j' = None /\
    _handle j' = None /\ pos j' = Some 0 /\
    read_lines j' = 0 /\ actual_lines j' = 0 /\ cancel_pos j' = None.
Proof.
  split; [left; reflexivity|]. split; [reflexivity|]. split; [reflexivity|].
  apply (proj1 (from_job_mirrors_the_source (fst one_line_read) "a.gco" world0)
           three_lines); [left; reflexivity|reflexivity].
Defined.

(** ** Lost time *)

Lemma process_keeps_lost_time (p : protocol) (position : Z)
    (tags : option (list string)) (j : job) (w : world) :
  _lost_time (fst (after (process p position tags) (j, w))) = _lost_time j.
Proof.
  destruct j as [c st pr nm us lt le sto pis pa en sz po rl al cp ha re fi
                 si sti ac lp].
  destruct w as [ck tk fs ls tr].
  unfold after, process, LocalGcodeStreamjob_process, LocalFilePrintjob_process,
    SDFilePrintjob_process, Printjob_process, process_job_started,
    notify_listeners, bom_aware_open, on_protocol, monotonic, emit, update,
    get_self, bind, ret.
  destruct c; cbn -[add_listener registered app Z.ltb];
    try (destruct (fs pa) eqn:F; cbn -[add_listener registered app Z.ltb]);
    try (destruct (Z.ltb 0 position); cbn -[add_listener registered app Z.ltb]);
    reflexivity.
Qed.

(** X15.  Lost time adds up and is never taken back: after
    [add_to_lost_time] of [a] and then of [b], [clean_elapsed] on a started
    job is the elapsed time less the old lost time, [a] and [b]; and
    neither an ending of the run nor a new [process] changes the lost time,
    so that a job that is processed again starts with the lost time of its
    earlier runs. *)
Theorem lost_time_adds_up_and_stays (j : job) (w : world) (t0 a b : time) :
  _start j = Some t0 ->
  result (add_to_lost_time a ;; add_to_lost_time b ;; clean_elapsed) (j, w)
    = Done (Some (clock w (ticks w) - t0 - (_lost_time j + a + b))) /\
  (forall e, can_end j ->
     _lost_time (fst (after (run_ending e) (j, w))) = _lost_time j) /\
  (forall p position tags,
     _lost_time (fst (after (process p position tags) (j, w))) = _lost_time j).
Proof.
  intros Hs. split; [|split].
  - unfold result, add_to_lost_time, clean_elapsed, elapsed, monotonic, update,
      get_self, bind, ret. simpl. rewrite Hs. simpl. reflexivity.
  - intros e C. unfold after.
    destruct (run_ending_returns e j w C) as (w0 & E & _).
    rewrite E.
    destruct (terminal_handling (ending_callback e) j w0) as (j' & w' & E' & _).
    fold (wrap_up (ending_callback e)) in E'. rewrite E'.
    destruct (wrap_up_timing _ _ _ _ _ E') as (L & _). exact L.
  - intros p position tags. apply process_keeps_lost_time.
Qed.

Lemma lost_time_adds_up_and_stays_witness :
  _start (fst one_line_read) = Some 100 /\
  result (add_to_lost_time 3 ;; add_to_lost_time 4 ;; clean_elapsed)
    (fst one_line_read, snd one_line_read)
    = Done (Some (clock (snd one_line_read) (ticks (snd one_line_read)) - 100
                  - (_lost_time (fst one_line_read) + 3 + 4))) /\
  (forall e, can_end (fst one_line_read) ->
     _lost_time (fst (after (run_ending e) (fst one_line_read, snd one_line_read)))
       = _lost_time (fst one_line_read)) /\
  (forall p position tags,
     _lost_time (fst (after (process p position tags)
                        (fst one_line_read, snd one_line_read)))
       = _lost_time (fst one_line_read)).
Proof.
  split; [reflexivity|].
  apply (lost_time_adds_up_and_stays
           (fst one_line_read) (snd one_line_read) 100 3 4); reflexivity.
Defined.

(** ** The event payload *)

Lemma dict_get_set_same (k : string) (v : pyvalue) (d : dict) :
  dict_get k (dict_set k v d) = Some v.
Proof.
  induction d as [|[k' v'] d IH]; simpl.
  - rewrite String.eqb_refl. reflexivity.
  - destruct (String.eqb k k') eqn:E; simpl.
    + rewrite String.eqb_refl. reflexivity.
    + rewrite E. exact IH.
Qed.

Lemma dict_get_set_other (k k0 : string) (v : pyvalue) (d : dict) :
  k <> k0 -> dict_get k (dict_set k0 v d) = dict_get k d.
Proof.
  intros H. apply String.eqb_neq in H.
  induction d as [|[k' v'] d IH]; simpl.
  - rewrite H. reflexivity.
  - destruct (String.eqb k0 k') eqn:E; simpl.
    + apply String.eqb_eq in E. subst k'. rewrite H. reflexivity.
    + destruct (String.eqb k k'); [reflexivity|exact IH].
Qed.

(** X13.  The payload of an event is the [event_data] of the job with the
    entries of the job written over it: ["user"] for every job; ["name"],
    ["path"] (the path in the storage) and ["origin"] (the storage) for
    every job with a storage; ["size"] for a local-file job.  Every other
    key has the value it has in [event_data], or none. *)
Theorem event_payload_entries (event_data : dict) (j : job) :
  dict_get "user" (event_payload event_data j) = Some (py_of_string (user j)) /\
  (cls j <> PrintjobC ->
   dict_get "name" (event_payload event_data j) = Some (py_of_string (name j)) /\
   dict_get "path" (event_payload event_data j) = Some (PyStr (path_in_storage j)) /\
   dict_get "origin" (event_payload event_data j) = Some (PyStr (storage j))) /\
  (is_local (cls j) = true ->
   dict_get "size" (event_payload event_data j) = Some (py_of_int (size j))) /\
  (forall k,
     k <> "user" -> k <> "name" -> k <> "path" -> k <> "origin" -> k <> "size" ->
     dict_get k (event_payload event_data j) = dict_get k event_data).
Proof.
  unfold event_payload, LocalFilePrintjob_event_payload,
    StoragePrintjob_event_payload, Printjob_event_payload.
  split; [|split; [|split]].
  - destruct (cls j);
      repeat (rewrite dict_get_set_other by discriminate);
      apply dict_get_set_same.
  - intros Hc. destruct (cls j); try contradiction; repeat split;
      repeat (rewrite dict_get_set_other by discriminate);
      apply dict_get_set_same.
  - intros Hl. destruct (cls j); try discriminate Hl; apply dict_get_set_same.
  - intros k H1 H2 H3 H4 H5.
    destruct (cls j); repeat (rewrite dict_get_set_other by assumption);
      reflexivity.
Qed.

(** X16.  The payload of a device-resident job built for [path]: the
    ["path"] that [SDFilePrintjob.__init__] puts in [event_data], the path
    as given, is written over by the path in the storage, which is the
    path without its leading slash, as is the name; the origin is
    ["sdcard"] and there is no user. *)
Theorem sd_job_payload (path' : string) (interval : time) :
  let j := SDFilePrintjob_init path' interval in
  let payload := event_payload (SDFilePrintjob_event_data path') j in
  dict_get "path" payload = Some (PyStr (path_in_storage j)) /\
  dict_get "name" payload = Some (PyStr (path_in_storage j)) /\
  dict_get "origin" payload = Some (PyStr "sdcard") /\
  dict_get "user" payload = Some PyNone /\
  dict_get "size" payload = None /\
  (forall rest, path' = String "/"%char rest -> path_in_storage j = rest) /\
  List.length payload = 4%nat.
Proof.
  cbv zeta.
  assert (L : forall rest, path' = String "/"%char rest ->
                path_in_storage (SDFilePrintjob_init path' interval) = rest)
    by (intros rest ->; reflexivity).
  destruct path' as [|[b0 b1 b2 b3 b4 b5 b6 b7] rest].
  - repeat split; first [reflexivity | exact L].
  - destruct b0, b1, b2, b3, b4, b5, b6, b7;
      repeat split; first [reflexivity | exact L].
Qed.

(** ** The device-resident job *)

(** X17.  [process] on a device-resident job registers on the protocol,
    asks it to start the print of the file of the job at the given
    position with the given tags, and starts the status timer; the job is
    then active at that position.  No listener of the job is notified: the
    "started" notification waits for [on_protocol_file_print_started],
    which also sets the size. *)
Theorem sd_process_waits_for_the_device (p : protocol) (position : Z)
    (tags : option (list string)) (j : job) (w : world) (name' : string)
    (size' : Z) :
  cls j = SDFilePrintjobC ->
  exists j' w',
    process p position tags (j, w) = (Done tt, (j', w')) /\
    trace w' =
      trace w ++
      [Call p register_listener; Call p register_listener;
       Call p (start_file_print (_filename j) position tags);
       TimerStart (status_interval j)] /\
    notifications (trace w') = notifications (trace w) /\
    active j' = true /\ pos j' = Some position /\ size j' = size j /\
    registered p (listeners w') = true /\
    result (on_protocol_file_print_started name' size') (j', w') = Done tt /\
    notifications
      (trace (snd (after (on_protocol_file_print_started name' size') (j', w'))))
      = notifications (trace w) ++ [on_job_started] /\
    size (fst (after (on_protocol_file_print_started name' size') (j', w')))
      = Some size'.
Proof.
  intros Hc.
  destruct j as [c st pr nm us lt le sto pis pa en sz po rl al cp ha re fi
                 si sti ac lp].
  destruct w as [ck tk fs ls tr].
  simpl in Hc. subst c.
  assert (R := registered_add p (add_listener p ls)).
  unfold process, SDFilePrintjob_process, Printjob_process,
    on_protocol_file_print_started, process_job_started, notify_listeners,
    on_protocol, monotonic, emit, update, get_self, bind, ret, result, after.
  cbn -[add_listener registered app notifications].
  eexists; eexists. split; [reflexivity|].
  cbn -[add_listener registered app notifications].
  split; [rewrite <- !app_assoc; reflexivity|].
  split; [rewrite !notifications_app; simpl; rewrite !app_nil_r; reflexivity|].
  split; [reflexivity|]. split; [reflexivity|]. split; [reflexivity|].
  split; [exact R|]. split; [reflexivity|].
  split; [rewrite !notifications_app; simpl; rewrite !app_nil_r; reflexivity|].
  reflexivity.
Qed.

Lemma sd_process_waits_for_the_device_witness :
  cls sd_job = SDFilePrintjobC /\
  exists j' w',
    process port 0 None (sd_job, world0) = (Done tt, (j', w')) /\
    trace w' =
      trace world0 ++
      [Call port register_listener; Call port register_listener;
       Call port (start_file_print (_filename sd_job) 0 None);
       TimerStart (status_interval sd_job)] /\
    notifications (trace w') = notifications (trace world0) /\
    active j' = true /\ pos j' = Some 0 /\ size j' = size sd_job /\
    registered port (listeners w') = true /\
    result (on_protocol_file_print_started "x" 1000) (j', w') = Done tt /\
    notifications
      (trace (snd (after (on_protocol_file_print_started "x" 1000) (j', w'))))
      = notifications (trace world0) ++ [on_job_started] /\
    size (fst (after (on_protocol_file_print_started "x" 1000) (j', w')))
      = Some 1000.
Proof.
  split; [reflexivity|].
  apply (sd_process_waits_for_the_device port 0 None sd_job world0 "x" 1000);
    reflexivity.
Defined.

(** X18.  The status callback of a device-resident job does not look at
    the state of the job: a status that arrives after the run was cancelled
    is taken like any other.  After [cancel] on a bound job and then
    [on_protocol_file_status], the terminal notification is followed by an
    [on_job_progress], and the job, still not active, has the position and
    the size of the late status. *)
Theorem late_status_is_not_ignored (error : bool) (pos' total : Z) (j : job)
    (w : world) (p : protocol) :
  cls j = SDFilePrintjobC -> _protocol j = Some p ->
  result (cancel error ;; on_protocol_file_status pos' total) (j, w) = Done tt /\
  notifications
    (trace (snd (after (cancel error ;; on_protocol_file_status pos' total) (j, w))))
    = notifications (trace w) ++ [cancel_callback error; on_job_progress] /\
  active (fst (after (cancel error ;; on_protocol_file_status pos' total) (j, w)))
    = false /\
  pos (fst (after (cancel error ;; on_protocol_file_status pos' total) (j, w)))
    = Some pos' /\
  size (fst (after (cancel error ;; on_protocol_file_status pos' total) (j, w)))
    = Some total.
Proof.
  intros Hc Hp.
  destruct (cancel_bound_fields error j w p Hp)
    as (j' & w' & E & A & _ & _ & _ & _ & N & _).
  assert (Hc' : cls j' = SDFilePrintjobC).
  { destruct (cancel_bound error j w p Hp) as (j2 & w2 & stats & E2 & _ & C2 & _).
    rewrite E in E2. injection E2 as <- <-. rewrite C2. exact Hc. }
  unfold result, after. rewrite (bind_Done _ _ _ _ _ E).
  unfold on_protocol_file_status, process_job_progress, notify_listeners,
    emit, update, get_self, bind, ret. simpl.
  split; [reflexivity|].
  split; [rewrite notifications_app, N, <- app_assoc; reflexivity|].
  unfold active, pos, size in *. simpl. rewrite Hc' in *.
  split; [exact A|]. split; reflexivity.
Qed.

Lemma late_status_is_not_ignored_witness :
  cls (fst sd_printing) = SDFilePrintjobC /\
  _protocol (fst sd_printing) = Some port /\
  result (cancel true ;; on_protocol_file_status 300 1000)
    (fst sd_printing, snd sd_printing) = Done tt /\
  notifications
    (trace (snd (after (cancel true ;; on_protocol_file_status 300 1000)
                   (fst sd_printing, snd sd_printing))))
    = notifications (trace (snd sd_printing))
      ++ [cancel_callback true; on_job_progress] /\
  active (fst (after (cancel true ;; on_protocol_file_status 300 1000)
                 (fst sd_printing, snd sd_printing))) = false /\
  pos (fst (after (cancel true ;; on_protocol_file_status 300 1000)
              (fst sd_printing, snd sd_printing))) = Some 300 /\
  size (fst (after (cancel true ;; on_protocol_file_status 300 1000)
               (fst sd_printing, snd sd_printing))) = Some 1000.
Proof.
  split; [reflexivity|]. split; [reflexivity|].
  apply (late_status_is_not_ignored true 300 1000
           (fst sd_printing) (snd sd_printing) port); reflexivity.
Defined.
